(** * FashionMNIST notebook: model, training loop, evaluation loop, persistence

    A shallow embedding of [projects/fashionMNIST.ipynb].  The notebook's own
    code (the data-shape cell, the [NeuralNetwork] class, [train], [test],
    the epoch loop, the save/load cell and the single-sample prediction
    cell) is transcribed function by function.  The tensor library it calls is modelled by the
    documented behaviour of the handful of operations the notebook uses;
    automatic differentiation, the SGD update rule, the value of the
    cross-entropy loss and the pickle codec are parameters of the
    development. *)

From Stdlib Require Import ZArith QArith Lia.
From stdpp Require Import gmap strings list fin_maps pretty.

Close Scope Q_scope.

(** ** Python exceptions and fallible results *)

Inductive exn : Type :=
| RuntimeError (msg : string)
| IndexError (msg : string)
| ZeroDivisionError
| FileNotFoundError (path : string)
| UnpicklingError
| TypeError (msg : string)
| ValueError (msg : string).

Inductive result (A : Type) : Type :=
| Ok (a : A)
| Raise (e : exn).
Arguments Ok {A} a.
Arguments Raise {A} e.

(** Sequencing, for fallible values here and for programs below. *)
Class Bind (M : Type → Type) : Type :=
  bind : ∀ {A B}, M A → (A → M B) → M B.
Global Hint Mode Bind ! : typeclass_instances.

Declare Scope py_scope.
Notation "x ← y ; z" := (bind y (λ x, z))
  (at level 20, y at level 100, z at level 200, only parsing) : py_scope.
Notation "x ;; z" := (bind x (λ _, z))
  (at level 100, z at level 200, only parsing, right associativity) : py_scope.
Open Scope py_scope.

#[export] Instance result_bind : Bind result := λ A B r k,
  match r with
  | Ok a => k a
  | Raise e => Raise e
  end.

Fixpoint map_result {A B} (f : A → result B) (l : list A) : result (list B) :=
  match l with
  | [] => Ok []
  | a :: l' => b ← f a; bs ← map_result f l'; Ok (b :: bs)
  end.

(** ** Tensors

    A tensor is its shape together with its elements in row-major order, the
    layout of a contiguous [torch.Tensor].  The element type is abstract: the
    notebook never looks at a floating-point value except to compare two of
    them inside [argmax]. *)

Class Scalar (R : Type) : Type := {
  s_zero : R;
  s_add : R → R → R;
  s_mul : R → R → R;
  s_relu : R → R;          (* elementwise [nn.ReLU] *)
  s_gt : R → R → bool      (* the comparison [argmax] uses *)
}.

Record tensor (R : Type) : Type := Tensor {
  shape : list nat;
  data : list R
}.
Arguments Tensor {R} shape data.
Arguments shape {R} t.
Arguments data {R} t.

Definition numel (sh : list nat) : nat := foldr Nat.mul 1 sh.

(** The invariant every real tensor satisfies: as many elements as the shape
    says. *)
Definition tensor_ok {R} (t : tensor R) : bool :=
  length (data t) =? numel (shape t).

(** [rows n k d] cuts the first [n * k] elements of [d] into [n] rows of [k]. *)
Definition rows {R} (n k : nat) (d : list R) : list (list R) :=
  (λ i, take k (drop (i * k) d)) <$> seq 0 n.

Section Notebook.
Context {R : Type} `{Scalar R}.

(** *** [nn.Flatten] *)

Record Flatten : Type := {
  start_dim : nat;
  end_dim : Z
}.

(** [nn.Flatten()] has the defaults [start_dim=1, end_dim=-1]. *)
Definition Flatten_init : Flatten := {| start_dim := 1; end_dim := -1 |}.

(** [torch.flatten(x, start_dim, end_dim)]: the dimensions [start_dim .. end_dim]
    are merged into one; a negative [end_dim] counts from the last dimension. *)
Definition Flatten_forward (f : Flatten) (x : tensor R) : result (tensor R) :=
  let ndim := length (shape x) in
  let e := if (end_dim f <? 0)%Z then (Z.of_nat ndim + end_dim f)%Z else end_dim f in
  if bool_decide (start_dim f < ndim ∧ (0 ≤ e < Z.of_nat ndim)%Z) then
    let e := Z.to_nat e in
    if bool_decide (start_dim f ≤ e) then
      Ok (Tensor (take (start_dim f) (shape x)
                  ++ [numel (take (S e - start_dim f) (drop (start_dim f) (shape x)))]
                  ++ drop (S e) (shape x))
                 (data x))
    else Raise (RuntimeError "flatten() has invalid args: start_dim cannot come after end_dim")
  else Raise (IndexError "Dimension out of range").

(** *** [nn.Linear] *)

Record Linear : Type := {
  in_features : nat;
  out_features : nat;
  weight : tensor R;       (* shape [out_features; in_features] *)
  bias : tensor R          (* shape [out_features] *)
}.

(** [nn.Linear(in_features, out_features)] draws its initial parameters at
    random; [gen] is the sequence of draws. *)
Definition Linear_init (inf outf : nat) (gen : nat → R) : Linear :=
  {| in_features := inf;
     out_features := outf;
     weight := Tensor [outf; inf] (gen <$> seq 0 (outf * inf));
     bias := Tensor [outf] (gen <$> seq (outf * inf) outf) |}.

Definition dot (x w : list R) : R :=
  foldl (λ acc p, s_add acc (s_mul p.1 p.2)) s_zero (zip x w).

(** One row of [x @ W.T + b]. *)
Definition affine (w b : tensor R) (x : list R) : list R :=
  match shape w with
  | [outf; inf] =>
      (λ j, s_add (dot x (take inf (drop (j * inf) (data w))))
                  (default s_zero (data b !! j))) <$> seq 0 outf
  | _ => []
  end.

(** [F.linear(x, weight, bias)]: the last dimension of [x] must be the
    weight's second dimension; every row of [x] is mapped by [affine]. *)
Definition Linear_forward (l : Linear) (x : tensor R) : result (tensor R) :=
  match shape (weight l), last (shape x) with
  | [outf; inf], Some k =>
      if bool_decide (k = inf) then
        let lead := removelast (shape x) in
        Ok (Tensor (lead ++ [outf])
                   (concat (affine (weight l) (bias l) <$> rows (numel lead) k (data x))))
      else Raise (RuntimeError "mat1 and mat2 shapes cannot be multiplied")
  | _, _ => Raise (RuntimeError "mat1 and mat2 shapes cannot be multiplied")
  end.

(** *** [nn.ReLU] *)

Definition ReLU_forward (x : tensor R) : tensor R :=
  Tensor (shape x) (s_relu <$> data x).

(** *** [nn.Sequential] *)

Inductive Module : Type :=
| ModLinear (l : Linear)
| ModReLU.

Definition Module_forward (m : Module) (x : tensor R) : result (tensor R) :=
  match m with
  | ModLinear l => Linear_forward l x
  | ModReLU => Ok (ReLU_forward x)
  end.

Abbreviation Sequential := (list Module) (only parsing).

Fixpoint Sequential_forward (s : Sequential) (x : tensor R) : result (tensor R) :=
  match s with
  | [] => Ok x
  | m :: s' => x ← Module_forward m x; Sequential_forward s' x
  end.

(** *** [class NeuralNetwork(nn.Module)] *)

Record NeuralNetwork : Type := {
  flatten : Flatten;
  linear_relu_stack : Sequential
}.

(** [__init__]: the three linear layers draw 784*512+512, 512*512+512 and
    512*10+10 initial values in turn. *)
Definition NeuralNetwork_init (gen : nat → R) : NeuralNetwork :=
  let n0 := 28 * 28 * 512 + 512 in
  let n2 := 512 * 512 + 512 in
  {| flatten := Flatten_init;
     linear_relu_stack :=
       [ ModLinear (Linear_init (28 * 28) 512 gen);
         ModReLU;
         ModLinear (Linear_init 512 512 (λ i, gen (n0 + i)));
         ModReLU;
         ModLinear (Linear_init 512 10 (λ i, gen (n0 + n2 + i))) ] |}.

(** [forward(self, x)] *)
Definition forward (self : NeuralNetwork) (x : tensor R) : result (tensor R) :=
  x ← Flatten_forward (flatten self) x;
  let logits := Sequential_forward (linear_relu_stack self) x in
  logits.

(** *** Indexing and [argmax] *)

(** [len(x)]: the size of the first dimension. *)
Definition tensor_len (x : tensor R) : result nat :=
  match shape x with
  | n :: _ => Ok n
  | [] => Raise (TypeError "len() of a 0-d tensor")
  end.

(** [x[i]]: the [i]-th slice along the first dimension. *)
Definition select (x : tensor R) (i : nat) : result (tensor R) :=
  match shape x with
  | n :: rest =>
      if bool_decide (i < n) then
        Ok (Tensor rest (take (numel rest) (drop (i * numel rest) (data x))))
      else Raise (IndexError "index out of bounds")
  | [] => Raise (IndexError "invalid index of a 0-dim tensor")
  end.

(** The index of the first maximal element, scanning left to right. *)
Fixpoint argmax_from (best_i : nat) (best : R) (i : nat) (l : list R) : nat :=
  match l with
  | [] => best_i
  | x :: l' =>
      if s_gt x best then argmax_from i x (S i) l'
      else argmax_from best_i best (S i) l'
  end.

Definition argmax_list (l : list R) : result nat :=
  match l with
  | [] => Raise (IndexError "argmax(): Expected reduction dim to have non-zero size")
  | x :: l' => Ok (argmax_from 0 x 1 l')
  end.

(** [x.argmax(0)] on a vector. *)
Definition argmax0 (x : tensor R) : result nat :=
  match shape x with
  | [_] => argmax_list (data x)
  | _ => Raise (RuntimeError "argmax(0): only vectors are modelled")
  end.

(** [x.argmax(1)] on a matrix: one index per row. *)
Definition argmax1 (x : tensor R) : result (list nat) :=
  match shape x with
  | [n; c] => map_result argmax_list (rows n c (data x))
  | _ => Raise (IndexError "argmax(1): only matrices are modelled")
  end.

(** A Python list subscript with a non-negative index. *)
Definition list_index {A} (l : list A) (i : nat) : result A :=
  match l !! i with
  | Some a => Ok a
  | None => Raise (IndexError "list index out of range")
  end.

(** ** The dataset and the batch iterator *)

(** A dataset is a sequence of (image tensor, label) samples, what
    [datasets.FashionMNIST(..., transform=ToTensor())] yields on indexing. *)
Abbreviation Dataset := (list (tensor R * nat)) (only parsing).

Record DataLoader : Type := {
  dataset : Dataset;
  batch_size : nat           (* positive: torch rejects 0 at construction *)
}.

Definition DataLoader_init (ds : Dataset) (bs : nat) : DataLoader :=
  {| dataset := ds; batch_size := bs |}.

(** [torch.stack] *)
Definition stack (ts : list (tensor R)) : result (tensor R) :=
  match ts with
  | [] => Raise (RuntimeError "stack expects a non-empty TensorList")
  | t :: _ =>
      if forallb (λ u, bool_decide (shape u = shape t)) ts then
        Ok (Tensor (length ts :: shape t) (concat (data <$> ts)))
      else Raise (RuntimeError "stack expects each tensor to be equal size")
  end.

Definition default_collate (b : list (tensor R * nat)) : result (tensor R * list nat) :=
  X ← stack (b.*1);
  Ok (X, b.*2).

(** The sequential batch sampler: groups of [bs] consecutive samples, the
    last one shorter when [bs] does not divide the length ([drop_last=False]).
    [fuel] bounds the number of batches; the length of the list is enough. *)
Fixpoint batch_sampler {A} (fuel bs : nat) (l : list A) : list (list A) :=
  match fuel, l with
  | S fuel', _ :: _ => take bs l :: batch_sampler fuel' bs (drop bs l)
  | _, _ => []
  end.

(** [iter(dataloader)]: every [next] collates one group and may raise. *)
Definition DataLoader_iter (dl : DataLoader) : list (result (tensor R * list nat)) :=
  default_collate <$> batch_sampler (length (dataset dl)) (batch_size dl) (dataset dl).

(** [len(dataloader)] *)
Definition DataLoader_len (dl : DataLoader) : nat :=
  (length (dataset dl) + batch_size dl - 1) / batch_size dl.

Definition enumerate {A} (l : list A) : list (nat * A) := zip (seq 0 (length l)) l.

(** The cell that shows the shape of the data,
    [for X, y in train_dataloader: print(X.shape); print(y.shape); break]:
    only the first batch is drawn from the iterator.  The value is the list
    of the shapes printed. *)
Definition data_shape_cell (dl : DataLoader) : result (list (list nat)) :=
  match DataLoader_iter dl with
  | [] => Ok []
  | Xy :: _ =>
      Xy ← Xy;
      let X := Xy.1 in
      let y := Xy.2 in
      Ok [shape X; [length y]]
  end.

(** ** The collaborators the notebook does not implement

    [G] is the type of a gradient for all parameters, [autograd p X y] the
    gradient of [loss_fn(model(X), y)] at parameters [p], [G_add] the
    accumulation [.grad += g], [sgd p g] the update of
    [torch.optim.SGD(lr=1e-3)], [ce_value] the number
    [nn.CrossEntropyLoss()] returns on valid arguments, and
    [pickle_dumps]/[pickle_loads] the codec behind [torch.save]/[torch.load]. *)

Context {G Blob : Type}.
Variable autograd : NeuralNetwork → tensor R → list nat → G.
Variable G_add : G → G → G.
Variable sgd : NeuralNetwork → G → NeuralNetwork.
Variable ce_value : tensor R → list nat → Q.
Variable pickle_dumps : gmap string (tensor R) → Blob.
Variable pickle_loads : Blob → option (gmap string (tensor R)).

(** ** The interpreter state *)

(** The [nn.Module] object: parameters, their [.grad], and [self.training]. *)
Record module_state : Type := {
  net : NeuralNetwork;
  grad : option G;
  training : bool
}.

(** The lines printed by the cells modelled here. *)
Inductive line : Type :=
| LineEpoch (n : nat)
| LineProgress (loss : Q) (current size : nat)
| LineTestError (accuracy_pct avg_loss : Q)
| LineDone
| LineSaved
| LinePredicted (predicted actual : string).

(** The library operations performed, in order (ghost state).  A backward
    pass records what it differentiates (the loss of batch [X], [y] at
    parameters [p]) and the [.grad] it found; an optimizer step records the
    [.grad] it read. *)
Inductive event : Type :=
| EvForward (X : tensor R) (tracked : bool)
| EvLoss (y : list nat)
| EvBackward (p : NeuralNetwork) (X : tensor R) (y : list nat) (before : option G)
| EvStep (used : option G)
| EvZeroGrad.

Record world : Type := {
  model : module_state;
  grad_enabled : bool;              (* [torch.is_grad_enabled()] *)
  files : gmap string Blob;
  stdout : list line;
  log : list event
}.

Definition prog (A : Type) : Type := world → result (A * world).

Definition ret {A} (a : A) : prog A := λ w, Ok (a, w).

#[export] Instance prog_bind : Bind prog := λ A B c k w,
  match c w with
  | Ok (a, w') => k a w'
  | Raise e => Raise e
  end.

Definition lift {A} (r : result A) : prog A := λ w,
  match r with
  | Ok a => Ok (a, w)
  | Raise e => Raise e
  end.

(** Field updates of the state. *)
Definition with_model (m : module_state) (w : world) : world :=
  {| model := m; grad_enabled := grad_enabled w; files := files w;
     stdout := stdout w; log := log w |}.

Definition with_grad_enabled (b : bool) (w : world) : world :=
  {| model := model w; grad_enabled := b; files := files w;
     stdout := stdout w; log := log w |}.

Definition with_files (fs : gmap string Blob) (w : world) : world :=
  {| model := model w; grad_enabled := grad_enabled w; files := fs;
     stdout := stdout w; log := log w |}.

Definition add_stdout (ls : list line) (w : world) : world :=
  {| model := model w; grad_enabled := grad_enabled w; files := files w;
     stdout := stdout w ++ ls; log := log w |}.

Definition add_log (es : list event) (w : world) : world :=
  {| model := model w; grad_enabled := grad_enabled w; files := files w;
     stdout := stdout w; log := log w ++ es |}.

Definition get_model : prog module_state := λ w, Ok (model w, w).

Definition put_model (m : module_state) : prog unit := λ w, Ok (tt, with_model m w).

Definition is_grad_enabled : prog bool := λ w, Ok (grad_enabled w, w).

Definition set_grad_enabled (b : bool) : prog unit := λ w, Ok (tt, with_grad_enabled b w).

Definition get_files : prog (gmap string Blob) := λ w, Ok (files w, w).

Definition set_files (fs : gmap string Blob) : prog unit := λ w, Ok (tt, with_files fs w).

Definition print (l : line) : prog unit := λ w, Ok (tt, add_stdout [l] w).

Definition emit (e : event) : prog unit := λ w, Ok (tt, add_log [e] w).

Fixpoint for_each {A} (l : list A) (body : A → prog unit) : prog unit :=
  match l with
  | [] => ret tt
  | a :: l' => body a;; for_each l' body
  end.

Fixpoint for_fold {A S} (l : list A) (body : A → S → prog S) (s : S) : prog S :=
  match l with
  | [] => ret s
  | a :: l' => s' ← body a s; for_fold l' body s'
  end.

(** *** Library calls on the model, the loss and the optimizer *)

(** A model output, with the graph autograd recorded for it (if any). *)
Record Pred : Type := {
  value : tensor R;
  pred_graph : option (NeuralNetwork * tensor R)
}.

(** A loss, with its Python number and its graph. *)
Record Loss : Type := {
  item : Q;
  loss_graph : option (NeuralNetwork * tensor R * list nat)
}.

(** [model.train()] and [model.eval()] *)
Definition model_train : prog unit :=
  m ← get_model;
  put_model {| net := net m; grad := grad m; training := true |}.

Definition model_eval : prog unit :=
  m ← get_model;
  put_model {| net := net m; grad := grad m; training := false |}.

(** [model(X)] *)
Definition call_model (X : tensor R) : prog Pred :=
  m ← get_model;
  tracked ← is_grad_enabled;
  out ← lift (forward (net m) X);
  emit (EvForward X tracked);;
  ret {| value := out;
          pred_graph := if tracked then Some (net m, X) else None |}.

(** [nn.CrossEntropyLoss()(pred, y)] with class-index targets. *)
Definition loss_fn (pred : Pred) (y : list nat) : prog Loss :=
  match shape (value pred) with
  | [n; c] =>
      if bool_decide (n = length y) then
        if forallb (λ t, bool_decide (t < c)) y then
          emit (EvLoss y);;
          ret {| item := ce_value (value pred) y;
                  loss_graph := (λ g, (g.1, g.2, y)) <$> pred_graph pred |}
        else lift (Raise (IndexError "Target is out of bounds"))
      else lift (Raise (ValueError "Expected input batch_size to match target batch_size"))
  | _ => lift (Raise (RuntimeError "CrossEntropyLoss: only matrices of scores are modelled"))
  end.

Definition accumulate (old : option G) (g : G) : G :=
  match old with
  | None => g
  | Some o => G_add o g
  end.

(** [loss.backward()] *)
Definition backward (loss : Loss) : prog unit :=
  match loss_graph loss with
  | None => lift (Raise (RuntimeError "element 0 of tensors does not require grad"))
  | Some g =>
      m ← get_model;
      let fresh := autograd g.1.1 g.1.2 g.2 in
      emit (EvBackward g.1.1 g.1.2 g.2 (grad m));;
      put_model {| net := net m; grad := Some (accumulate (grad m) fresh);
                   training := training m |}
  end.

(** [optimizer.step()]: the optimizer holds the model's own parameters. *)
Definition optimizer_step : prog unit :=
  m ← get_model;
  emit (EvStep (grad m));;
  match grad m with
  | Some g => put_model {| net := sgd (net m) g; grad := grad m; training := training m |}
  | None => ret tt
  end.

(** [optimizer.zero_grad()]: with the default [set_to_none=True] the
    gradients are dropped rather than overwritten with zeros. *)
Definition optimizer_zero_grad : prog unit :=
  m ← get_model;
  emit EvZeroGrad;;
  put_model {| net := net m; grad := None; training := training m |}.

(** [with torch.no_grad(): body] *)
Definition with_no_grad {A} (body : prog A) : prog A :=
  prev ← is_grad_enabled;
  set_grad_enabled false;;
  a ← body;
  set_grad_enabled prev;;
  ret a.

(** ** [train]

    [train(dataloader, model, loss_fn, optimizer)] is only ever called with
    the notebook's global [model], [loss_fn] and [optimizer]: here they are
    the module of the state and the library calls above.  Moving a tensor
    with [.to(device)] does not change it and is left out. *)

(** The body of the loop, for batch number [it.1]. *)
Definition train_batch (size : nat) (it : nat * result (tensor R * list nat)) : prog unit :=
  let batch := it.1 in
  Xy ← lift it.2;
  let X := Xy.1 in
  let y := Xy.2 in
  (* Compute prediction error *)
  pred ← call_model X;
  loss ← loss_fn pred y;
  (* Backpropagation *)
  backward loss;;
  optimizer_step;;
  optimizer_zero_grad;;
  if batch mod 100 =? 0 then
    len_X ← lift (tensor_len X);
    let current := (batch + 1) * len_X in
    print (LineProgress (item loss) current size)
  else ret tt.

Definition train (dataloader : DataLoader) : prog unit :=
  let size := length (dataset dataloader) in
  model_train;;
  for_each (enumerate (DataLoader_iter dataloader)) (train_batch size).

(** ** [test] *)

(** [(pred.argmax(1) == y).type(torch.float).sum().item()].  The comparison
    is only reached after [loss_fn] has accepted [pred] and [y], that is with
    as many rows as labels; broadcasting of unequal lengths is not modelled. *)
Definition count_correct (pred : tensor R) (y : list nat) : result nat :=
  am ← argmax1 pred;
  if bool_decide (length am = length y) then
    Ok (length (filter (λ p, p.1 = p.2) (zip am y)))
  else Raise (RuntimeError "The size of tensor a must match the size of tensor b").

(** Python's [a / n] for an integer [n]. *)
Definition py_div (a : Q) (n : nat) : result Q :=
  if n =? 0 then Raise ZeroDivisionError
  else Ok (a / inject_Z (Z.of_nat n))%Q.

Definition test_batch (Xy : result (tensor R * list nat)) (acc : Q * Q) : prog (Q * Q) :=
  let test_loss := acc.1 in
  let correct := acc.2 in
  Xy ← lift Xy;
  let X := Xy.1 in
  let y := Xy.2 in
  pred ← call_model X;
  loss ← loss_fn pred y;
  let test_loss := (test_loss + item loss)%Q in
  c ← lift (count_correct (value pred) y);
  let correct := (correct + inject_Z (Z.of_nat c))%Q in
  ret (test_loss, correct).

Definition test (dataloader : DataLoader) : prog unit :=
  let size := length (dataset dataloader) in
  let num_batches := DataLoader_len dataloader in
  model_eval;;
  acc ← with_no_grad (for_fold (DataLoader_iter dataloader) test_batch (0%Q, 0%Q));
  test_loss ← lift (py_div acc.1 num_batches);
  correct ← lift (py_div acc.2 size);
  print (LineTestError (100 * correct)%Q test_loss).

(** ** The epoch loop *)

Definition epochs : nat := 5.

Definition epoch (train_dataloader test_dataloader : DataLoader) (t : nat) : prog unit :=
  print (LineEpoch (t + 1));;
  train train_dataloader;;
  test test_dataloader.

Definition run_epochs (train_dataloader test_dataloader : DataLoader) : prog unit :=
  for_each (seq 0 epochs) (epoch train_dataloader test_dataloader);;
  print LineDone.

(** ** Saving and loading the parameters *)

Definition Module_parameters (prefix : string) (m : Module) : list (string * tensor R) :=
  match m with
  | ModLinear l => [(prefix +:+ "weight", weight l); (prefix +:+ "bias", bias l)]
  | ModReLU => []
  end.

(** The children of an [nn.Sequential] are named by their position. *)
Definition Sequential_parameters (prefix : string) (s : Sequential) : list (string * tensor R) :=
  concat (imap (λ i m, Module_parameters (prefix +:+ pretty i +:+ ".") m) s).

(** [named_parameters()]; [nn.Flatten] contributes nothing. *)
Definition named_parameters (self : NeuralNetwork) : list (string * tensor R) :=
  Sequential_parameters "linear_relu_stack." (linear_relu_stack self).

(** [model.state_dict()] *)
Definition state_dict (self : NeuralNetwork) : gmap string (tensor R) :=
  list_to_map (named_parameters self).

Definition Module_load (prefix : string) (sd : gmap string (tensor R)) (m : Module) : Module :=
  match m with
  | ModLinear l =>
      ModLinear {| in_features := in_features l;
                   out_features := out_features l;
                   weight := default (weight l) (sd !! (prefix +:+ "weight"));
                   bias := default (bias l) (sd !! (prefix +:+ "bias")) |}
  | ModReLU => ModReLU
  end.

Definition is_missing (sd : gmap string (tensor R)) (kp : string * tensor R) : bool :=
  match sd !! kp.1 with
  | None => true
  | Some _ => false
  end.

Definition is_size_mismatch (sd : gmap string (tensor R)) (kp : string * tensor R) : bool :=
  match sd !! kp.1 with
  | None => false
  | Some t => negb (bool_decide (shape t = shape kp.2))
  end.

(** [model.load_state_dict(sd)] with the default [strict=True]: a missing
    key, an unexpected key or a parameter of another shape is an error;
    otherwise every parameter takes the stored value.  A failed call is
    modelled by its exception alone. *)
Definition load_state_dict (self : NeuralNetwork) (sd : gmap string (tensor R))
    : result NeuralNetwork :=
  let own := named_parameters self in
  let missing_keys := filter (λ kp, is_missing sd kp) own in
  let unexpected_keys := filter (λ k, k ∉ own.*1) (elements (dom sd)) in
  let size_mismatch := filter (λ kp, is_size_mismatch sd kp) own in
  match missing_keys, unexpected_keys, size_mismatch with
  | [], [], [] =>
      Ok {| flatten := flatten self;
            linear_relu_stack :=
              imap (λ i m, Module_load ("linear_relu_stack." +:+ pretty i +:+ ".") sd m)
                   (linear_relu_stack self) |}
  | _, _, _ => Raise (RuntimeError "Error(s) in loading state_dict for NeuralNetwork")
  end.

(** [torch.save(obj, path)] overwrites the file. *)
Definition torch_save (obj : gmap string (tensor R)) (path : string) : prog unit :=
  fs ← get_files;
  set_files (<[path := pickle_dumps obj]> fs).

(** [torch.load(path)] *)
Definition torch_load (path : string) : prog (gmap string (tensor R)) :=
  fs ← get_files;
  match fs !! path with
  | None => lift (Raise (FileNotFoundError path))
  | Some b =>
      match pickle_loads b with
      | None => lift (Raise UnpicklingError)
      | Some sd => ret sd
      end
  end.

(** The cell [torch.save(model.state_dict(), "model.pth")]. *)
Definition save_cell : prog unit :=
  m ← get_model;
  torch_save (state_dict (net m)) "model.pth";;
  print LineSaved.

(** A freshly constructed module: no gradient yet, training mode. *)
Definition fresh_module (gen : nat → R) : module_state :=
  {| net := NeuralNetwork_init gen; grad := None; training := true |}.

(** The cell [model = NeuralNetwork(); model.load_state_dict(torch.load("model.pth"))]. *)
Definition load_cell (gen : nat → R) : prog unit :=
  put_model (fresh_module gen);;
  sd ← torch_load "model.pth";
  m ← get_model;
  net' ← lift (load_state_dict (net m) sd);
  put_model {| net := net'; grad := grad m; training := training m |}.

(** ** Single-sample prediction *)

Definition classes : list string :=
  [ "T-shirt/top";
    "Trouser";
    "Pullover";
    "Dress";
    "Coat";
    "Sandal";
    "Shirt";
    "Sneaker";
    "Bag";
    "Ankle boot" ].

Definition predict_cell (test_data : Dataset) : prog unit :=
  model_eval;;
  s ← lift (list_index test_data 1);
  let x := s.1 in
  let y := s.2 in
  with_no_grad (
    pred ← call_model x;
    row ← lift (select (value pred) 0);
    i ← lift (argmax0 row);
    predicted ← lift (list_index classes i);
    actual ← lift (list_index classes y);
    print (LinePredicted predicted actual)).

(** ** The state a fresh model starts from *)

Definition notebook_batch_size : nat := 64.

Definition initial_world (gen : nat → R) (fs : gmap string Blob) : world :=
  {| model := fresh_module gen; grad_enabled := true; files := fs;
     stdout := []; log := [] |}.

(** ** The cells from the epoch loop on

    The last four code cells in order: the epoch loop, the save cell, the
    load cell and the prediction cell, on the two loaders as the data cell
    builds them (batch size 64).  The cells before them are not part of this
    program: they build the data, the loaders, the model, the loss and the
    optimizer and print the data shapes, the device and the model, and so
    leave the state and the output these four cells start from. *)
Definition closing_cells (gen' : nat → R) (training_data test_data : Dataset) : prog unit :=
  let train_dataloader := DataLoader_init training_data notebook_batch_size in
  let test_dataloader := DataLoader_init test_data notebook_batch_size in
  run_epochs train_dataloader test_dataloader;;
  save_cell;;
  load_cell gen';;
  predict_cell test_data.

(** ** Well-formed models and data *)

#[export] Instance Flatten_eq_dec : EqDecision Flatten.
Proof. solve_decision. Defined.

Definition Linear_ok (inf outf : nat) (l : Linear) : bool :=
  bool_decide (in_features l = inf) && bool_decide (out_features l = outf)
  && bool_decide (shape (weight l) = [outf; inf]) && tensor_ok (weight l)
  && bool_decide (shape (bias l) = [outf]) && tensor_ok (bias l).

(** The topology [__init__] builds: the layer kinds, their order and the
    shapes of their parameters. *)
Definition has_topology (self : NeuralNetwork) : bool :=
  bool_decide (flatten self = Flatten_init) &&
  match linear_relu_stack self with
  | [ModLinear l0; ModReLU; ModLinear l2; ModReLU; ModLinear l4] =>
      Linear_ok (28 * 28) 512 l0 && Linear_ok 512 512 l2 && Linear_ok 512 10 l4
  | _ => false
  end.

(** A sample of the dataset: a 1x28x28 image and a label among the 10 classes. *)
Definition sample_ok (s : tensor R * nat) : bool :=
  bool_decide (shape s.1 = [1; 28; 28]) && tensor_ok s.1 && bool_decide (s.2 < 10).

Definition dataset_ok (ds : Dataset) : bool := forallb sample_ok ds.

(** ** The computation the specification describes *)

(** Per sample: linear 784→512, ReLU, linear 512→512, ReLU, linear 512→10. *)
Definition spec_logits (self : NeuralNetwork) (v : list R) : list R :=
  match linear_relu_stack self with
  | [ModLinear l0; ModReLU; ModLinear l2; ModReLU; ModLinear l4] =>
      affine (weight l4) (bias l4)
        (s_relu <$> affine (weight l2) (bias l2)
           (s_relu <$> affine (weight l0) (bias l0) v))
  | _ => []
  end.

(** Per batch: every sample is flattened to 784 values and mapped to its 10
    scores. *)
Definition spec_forward (self : NeuralNetwork) (x : tensor R) : tensor R :=
  let n := hd 0 (shape x) in
  Tensor [n; 10] (concat (spec_logits self <$> rows n (28 * 28) (data x))).

(** The class the model assigns to one image: the index of its largest score. *)
Definition argmax_total (l : list R) : nat :=
  match l with
  | [] => 0
  | x :: l' => argmax_from 0 x 1 l'
  end.

Definition predict (self : NeuralNetwork) (x : tensor R) : nat :=
  argmax_total (spec_logits self (data x)).

(** The batch a group of samples is collated into, and the batches of a
    loader, when nothing raises. *)
Definition collated (b : list (tensor R * nat)) : tensor R * list nat :=
  (Tensor (length b :: from_option (λ s, shape s.1) [] (head b)) (concat (data <$> b.*1)),
   b.*2).

Definition batches (dl : DataLoader) : list (tensor R * list nat) :=
  collated <$> batch_sampler (length (dataset dl)) (batch_size dl) (dataset dl).

(** *** The training loop, in closed form *)

(** Plain minibatch SGD: one update per batch, from that batch's gradient. *)
Definition sgd_pass (p : NeuralNetwork) (bs : list (tensor R * list nat)) : NeuralNetwork :=
  foldl (λ p Xy, sgd p (autograd p Xy.1 Xy.2)) p bs.

(** The five library calls of one iteration. *)
Definition batch_events (p : NeuralNetwork) (Xy : tensor R * list nat) : list event :=
  [EvForward Xy.1 true; EvLoss Xy.2; EvBackward p Xy.1 Xy.2 None;
   EvStep (Some (autograd p Xy.1 Xy.2)); EvZeroGrad].

Fixpoint train_events (p : NeuralNetwork) (bs : list (tensor R * list nat)) : list event :=
  match bs with
  | [] => []
  | Xy :: bs' => batch_events p Xy ++ train_events (sgd p (autograd p Xy.1 Xy.2)) bs'
  end.

(** The progress line of batch number [i], if it prints one. *)
Definition progress_line (size i : nat) (p : NeuralNetwork) (Xy : tensor R * list nat)
    : list line :=
  if i mod 100 =? 0
  then [LineProgress (ce_value (spec_forward p Xy.1) Xy.2) ((i + 1) * length Xy.2) size]
  else [].

Fixpoint progress_lines (size i : nat) (p : NeuralNetwork) (bs : list (tensor R * list nat))
    : list line :=
  match bs with
  | [] => []
  | Xy :: bs' =>
      progress_line size i p Xy
      ++ progress_lines size (S i) (sgd p (autograd p Xy.1 Xy.2)) bs'
  end.

(** The state [train] leaves, when nothing raises and no gradient was
    pending. *)
Definition after_train (dl : DataLoader) (w : world) : world :=
  let p := net (model w) in
  add_stdout (progress_lines (length (dataset dl)) 0 p (batches dl))
    (add_log (train_events p (batches dl))
       (with_model {| net := sgd_pass p (batches dl); grad := None; training := true |} w)).

(** *** The evaluation loop, in closed form *)

Definition Qsum (l : list Q) : Q := foldl Qplus 0%Q l.

Definition batch_losses (p : NeuralNetwork) (bs : list (tensor R * list nat)) : list Q :=
  (λ Xy, ce_value (spec_forward p Xy.1) Xy.2) <$> bs.

(** The samples the model classifies as labelled. *)
Definition correct_samples (p : NeuralNetwork) (ds : Dataset) : list (tensor R * nat) :=
  filter (λ s, predict p s.1 = s.2) ds.

Definition accuracy (p : NeuralNetwork) (ds : Dataset) : Q :=
  (inject_Z (Z.of_nat (length (correct_samples p ds)))
   / inject_Z (Z.of_nat (length ds)))%Q.

Definition average_loss (p : NeuralNetwork) (dl : DataLoader) : Q :=
  (Qsum (batch_losses p (batches dl)) / inject_Z (Z.of_nat (length (batches dl))))%Q.

Definition test_events (bs : list (tensor R * list nat)) : list event :=
  bs ≫= λ Xy, [EvForward Xy.1 false; EvLoss Xy.2].

(** The state [test] leaves, when nothing raises. *)
Definition after_test (dl : DataLoader) (w : world) : world :=
  let m := model w in
  add_stdout [LineTestError (100 * accuracy (net m) (dataset dl))%Q (average_loss (net m) dl)]
    (add_log (test_events (batches dl))
       (with_model {| net := net m; grad := grad m; training := false |} w)).

(** *** The epoch loop, in closed form *)

Definition after_epoch (tr te : DataLoader) (t : nat) (w : world) : world :=
  after_test te (after_train tr (add_stdout [LineEpoch (t + 1)] w)).

Fixpoint after_epochs (tr te : DataLoader) (ts : list nat) (w : world) : world :=
  match ts with
  | [] => w
  | t :: ts' => after_epochs tr te ts' (after_epoch tr te t w)
  end.

(** *** What a log says about the order of the library calls *)

(** The kind of a library call, without the values that change from one
    epoch to the next. *)
Inductive op : Type :=
| OpForward (X : tensor R) (tracked : bool)
| OpLoss (y : list nat)
| OpBackward
| OpStep
| OpZeroGrad.

Definition op_of (e : event) : op :=
  match e with
  | EvForward X tracked => OpForward X tracked
  | EvLoss y => OpLoss y
  | EvBackward _ _ _ _ => OpBackward
  | EvStep _ => OpStep
  | EvZeroGrad => OpZeroGrad
  end.

(** The kind of a printed line, without the numbers it carries. *)
Inductive line_kind : Type :=
| KEpoch (n : nat)
| KProgress
| KTestError
| KDone
| KSaved
| KPredicted.

Definition kind_of (l : line) : line_kind :=
  match l with
  | LineEpoch n => KEpoch n
  | LineProgress _ _ _ => KProgress
  | LineTestError _ _ => KTestError
  | LineDone => KDone
  | LineSaved => KSaved
  | LinePredicted _ _ => KPredicted
  end.

(** The kinds of the lines of one epoch: the header, the progress lines, the
    evaluation report. *)
Definition epoch_kinds (num_batches t : nat) : list line_kind :=
  KEpoch (t + 1) :: replicate ((num_batches + 99) / 100) KProgress ++ [KTestError].

(** Per batch: output, loss, gradient, update, reset. *)
Definition train_ops (bs : list (tensor R * list nat)) : list op :=
  bs ≫= λ Xy, [OpForward Xy.1 true; OpLoss Xy.2; OpBackward; OpStep; OpZeroGrad].

Definition test_ops (bs : list (tensor R * list nat)) : list op :=
  bs ≫= λ Xy, [OpForward Xy.1 false; OpLoss Xy.2].

(** Each optimizer step follows a backward pass that found no pending
    gradient, and reads exactly the gradient of that pass's batch. *)
Fixpoint single_batch_updates (l : list event) : Prop :=
  match l with
  | [] => True
  | EvBackward p X y before :: l' =>
      before = None ∧
      match l' with
      | EvStep used :: l'' => used = Some (autograd p X y) ∧ single_batch_updates l''
      | _ => False
      end
  | EvStep _ :: _ => False
  | _ :: l' => single_batch_updates l'
  end.

(** The first value of the first layer's weight: enough to tell two
    initialisations apart. *)
Definition first_weight (self : NeuralNetwork) : option R :=
  match linear_relu_stack self with
  | ModLinear l :: _ => head (data (weight l))
  | _ => None
  end.

(** ** What the collaborators are assumed to guarantee *)

(** The optimizer changes the values of the parameters, not their shapes. *)
Hypothesis sgd_topology : ∀ p g, has_topology p = true → has_topology (sgd p g) = true.

(** Cross-entropy is non-negative. *)
Hypothesis ce_nonneg : ∀ pred y, (0 <= ce_value pred y)%Q.

(** What [torch.save] writes, [torch.load] reads back. *)
Hypothesis pickle_roundtrip : ∀ sd, pickle_loads (pickle_dumps sd) = Some sd.

(** * Properties *)

Set Default Proof Using "Type".

(** ** Lists cut into rows *)

Lemma length_rows {A} n k (d : list A) : length (rows n k d) = n.
Proof. unfold rows. by rewrite length_fmap, length_seq. Qed.

Lemma rows_S {A} n k (d : list A) :
  rows (S n) k d = take k d :: rows n k (drop k d).
Proof.
  unfold rows. simpl. f_equal.
  rewrite <- fmap_S_seq, <- list_fmap_compose. apply list_fmap_ext.
  intros i j _. simpl. by rewrite drop_drop.
Qed.

Lemma rows_concat {A} k (rs : list (list A)) :
  Forall (λ r, length r = k) rs → rows (length rs) k (concat rs) = rs.
Proof.
  induction 1 as [|r rs Hr _ IH]; [done|].
  simpl length. rewrite rows_S. simpl concat.
  rewrite take_app_length' by done. rewrite drop_app_length' by done.
  by rewrite IH.
Qed.

Lemma concat_fmap_fmap {A B} (f : A → B) (rs : list (list A)) :
  f <$> concat rs = concat (fmap (M:=list) f <$> rs).
Proof. induction rs as [|r rs IH]; [done|]. simpl. by rewrite fmap_app, IH. Qed.

Lemma length_concat_const {A} k (rs : list (list A)) :
  Forall (λ r, length r = k) rs → length (concat rs) = length rs * k.
Proof.
  induction 1 as [|r rs Hr _ IH]; [done|].
  simpl. rewrite length_app. lia.
Qed.

Lemma numel_cons n sh : numel (n :: sh) = n * numel sh.
Proof. done. Qed.

Lemma numel_nil : numel [] = 1.
Proof. done. Qed.

Lemma forallb_Forall {A} (f : A → bool) (l : list A) :
  forallb f l = true ↔ Forall (λ x, f x = true) l.
Proof.
  induction l as [|a l IH]; simpl; [by split|].
  by rewrite andb_true_iff, Forall_cons, IH.
Qed.

Lemma zip_fmap_fmap {A B C} (f : A → B) (g : A → C) (l : list A) :
  zip (f <$> l) (g <$> l) = (λ a, (f a, g a)) <$> l.
Proof. induction l as [|a l IH]; [done|]. cbn. by f_equal. Qed.

(** ** The layers *)

(** The parameter counts (784 * 512 and the like) are never computed. *)
Local Arguments Nat.mul : simpl never.

Lemma tensor_ok_length (t : tensor R) :
  tensor_ok t = true → length (data t) = numel (shape t).
Proof. unfold tensor_ok. by rewrite Nat.eqb_eq. Qed.

Lemma Linear_ok_inv inf outf l :
  Linear_ok inf outf l = true →
  in_features l = inf ∧ out_features l = outf ∧
  shape (weight l) = [outf; inf] ∧ length (data (weight l)) = outf * inf ∧
  shape (bias l) = [outf] ∧ length (data (bias l)) = outf.
Proof.
  unfold Linear_ok. rewrite !andb_true_iff, !bool_decide_eq_true.
  intros [[[[[? ?] Hw] Hwl] Hb] Hbl].
  apply tensor_ok_length in Hwl, Hbl. rewrite Hw in Hwl. rewrite Hb in Hbl.
  unfold numel in Hwl, Hbl. cbn [foldr] in Hwl, Hbl.
  repeat split; try done; lia.
Qed.

Lemma Linear_init_ok inf outf gen : Linear_ok inf outf (Linear_init inf outf gen) = true.
Proof.
  unfold Linear_ok, Linear_init, tensor_ok; simpl shape; simpl data.
  rewrite !andb_true_iff, !bool_decide_eq_true, !Nat.eqb_eq.
  rewrite !length_fmap, !length_seq, !numel_cons, numel_nil.
  repeat split; try done; lia.
Qed.

Lemma Linear_init_weight_shape inf outf gen :
  shape (weight (Linear_init inf outf gen)) = [outf; inf].
Proof. done. Qed.

Lemma NeuralNetwork_init_topology gen : has_topology (NeuralNetwork_init gen) = true.
Proof.
  unfold has_topology, NeuralNetwork_init. cbn [flatten linear_relu_stack].
  rewrite !Linear_init_ok. by rewrite bool_decide_eq_true_2.
Qed.

Lemma has_topology_inv self :
  has_topology self = true →
  flatten self = Flatten_init ∧
  ∃ l0 l2 l4,
    linear_relu_stack self = [ModLinear l0; ModReLU; ModLinear l2; ModReLU; ModLinear l4] ∧
    Linear_ok (28 * 28) 512 l0 = true ∧ Linear_ok 512 512 l2 = true ∧
    Linear_ok 512 10 l4 = true.
Proof.
  unfold has_topology. rewrite andb_true_iff, bool_decide_eq_true.
  intros [Hf Hs]. split; [done|].
  destruct (linear_relu_stack self) as [|[l0|] [|[|] [|[l2|] [|[|] [|[l4|] [|]]]]]]; try done.
  apply andb_true_iff in Hs as [Hs ?]. apply andb_true_iff in Hs as [? ?].
  by exists l0, l2, l4.
Qed.

Lemma length_affine w b v outf inf :
  shape w = [outf; inf] → length (affine w b v) = outf.
Proof. intros Hw. unfold affine. rewrite Hw. by rewrite length_fmap, length_seq. Qed.

Lemma Flatten_forward_default n rest (x : tensor R) :
  shape x = n :: rest → rest ≠ [] →
  Flatten_forward Flatten_init x = Ok (Tensor [n; numel rest] (data x)).
Proof.
  intros Hx Hrest. unfold Flatten_forward, Flatten_init; simpl start_dim; simpl end_dim.
  rewrite Hx. simpl length.
  destruct rest as [|r rest]; [done|]. simpl length.
  replace (if (-1 <? 0)%Z then _ else _) with (Z.of_nat (S (length rest))) by (simpl; lia).
  rewrite bool_decide_eq_true_2 by lia.
  rewrite Nat2Z.id. rewrite bool_decide_eq_true_2 by lia.
  do 2 f_equal. simpl take. simpl drop.
  rewrite drop_all. replace (S (S (length rest)) - 1) with (length (r :: rest)) by (simpl; lia).
  by rewrite firstn_all.
Qed.

Lemma Linear_forward_rows inf outf l n d :
  Linear_ok inf outf l = true →
  Linear_forward l (Tensor [n; inf] d) =
    Ok (Tensor [n; outf] (concat (affine (weight l) (bias l) <$> rows n inf d))).
Proof.
  intros Hl. apply Linear_ok_inv in Hl as (_ & _ & Hw & _).
  unfold Linear_forward. rewrite Hw. cbn [shape data last removelast app].
  rewrite bool_decide_eq_true_2 by done.
  by rewrite numel_cons, numel_nil, Nat.mul_1_r.
Qed.

Lemma Linear_forward_concat inf outf l n (rs : list (list R)) :
  Linear_ok inf outf l = true → length rs = n → Forall (λ r, length r = inf) rs →
  Linear_forward l (Tensor [n; inf] (concat rs)) =
    Ok (Tensor [n; outf] (concat (affine (weight l) (bias l) <$> rs))).
Proof.
  intros Hl Hn Hrs. rewrite (Linear_forward_rows _ _ _ _ _ Hl).
  by rewrite <- Hn, rows_concat.
Qed.

Lemma Forall_length_affine inf outf l (rs : list (list R)) :
  Linear_ok inf outf l = true →
  Forall (λ r, length r = outf) (fmap (M:=list) s_relu <$> (affine (weight l) (bias l) <$> rs)).
Proof.
  intros (_ & _ & Hw & _)%Linear_ok_inv.
  rewrite <- list_fmap_compose. apply Forall_fmap, Forall_forall. intros v _. simpl.
  rewrite length_fmap. by eapply length_affine.
Qed.

Lemma spec_forward_shape self (x : tensor R) n rest :
  shape x = n :: rest → shape (spec_forward self x) = [n; 10].
Proof. intros Hx. unfold spec_forward. by rewrite Hx. Qed.

Lemma length_spec_logits self v : has_topology self = true → length (spec_logits self v) = 10.
Proof.
  intros (_ & l0 & l2 & l4 & Hs & _ & _ & H4)%has_topology_inv.
  unfold spec_logits. rewrite Hs.
  apply Linear_ok_inv in H4 as (_ & _ & Hw & _). by eapply length_affine.
Qed.

Lemma spec_forward_ok self x : has_topology self = true → tensor_ok (spec_forward self x) = true.
Proof.
  intros Hm. unfold tensor_ok, spec_forward. simpl data. simpl shape.
  rewrite Nat.eqb_eq, !numel_cons, numel_nil.
  rewrite (length_concat_const 10).
  - rewrite length_fmap, length_rows. lia.
  - apply Forall_fmap, Forall_forall. intros v _. simpl. by apply length_spec_logits.
Qed.

Lemma bind_Ok {A B} (a : A) (k : A → result B) : bind (Ok a) k = k a.
Proof. done. Qed.

Lemma Sequential_forward_spec self n d :
  has_topology self = true →
  Sequential_forward (linear_relu_stack self) (Tensor [n; 28 * 28] d) =
    Ok (Tensor [n; 10] (concat (spec_logits self <$> rows n (28 * 28) d))).
Proof.
  intros (_ & l0 & l2 & l4 & Hs & H0 & H2 & H4)%has_topology_inv.
  unfold spec_logits. rewrite Hs.
  cbn [Sequential_forward Module_forward].
  rewrite (Linear_forward_rows _ _ _ _ _ H0), bind_Ok.
  unfold ReLU_forward. cbn [shape data]. rewrite bind_Ok, concat_fmap_fmap.
  rewrite (Linear_forward_concat 512 512 l2 n);
    [|done|by rewrite !length_fmap, length_rows|by eapply Forall_length_affine].
  rewrite bind_Ok. cbn [shape data]. rewrite bind_Ok, concat_fmap_fmap.
  rewrite (Linear_forward_concat 512 10 l4 n);
    [|done|by rewrite !length_fmap, length_rows|by eapply Forall_length_affine].
  rewrite bind_Ok. do 2 f_equal.
  by rewrite <- !list_fmap_compose.
Qed.

(** *** [forward] against the specification's computation *)

Lemma forward_batch self n (x : tensor R) :
  has_topology self = true → shape x = [n; 1; 28; 28] →
  forward self x = Ok (spec_forward self x).
Proof.
  intros Hm Hx. unfold forward, spec_forward.
  destruct (has_topology_inv _ Hm) as [-> _].
  rewrite (Flatten_forward_default n [1; 28; 28]) by done.
  rewrite bind_Ok, Hx. cbn [hd].
  change (numel [1; 28; 28]) with (28 * 28).
  by apply Sequential_forward_spec.
Qed.

Lemma forward_sample self (x : tensor R) :
  has_topology self = true → shape x = [1; 28; 28] →
  forward self x = Ok (spec_forward self x).
Proof.
  intros Hm Hx. unfold forward, spec_forward.
  destruct (has_topology_inv _ Hm) as [-> _].
  rewrite (Flatten_forward_default 1 [28; 28]) by done.
  rewrite bind_Ok, Hx. cbn [hd].
  change (numel [28; 28]) with (28 * 28).
  by apply Sequential_forward_spec.
Qed.

(** ** The batch iterator *)

Lemma sample_ok_inv s :
  sample_ok s = true →
  shape s.1 = [1; 28; 28] ∧ length (data s.1) = 28 * 28 ∧ s.2 < 10.
Proof.
  unfold sample_ok. rewrite !andb_true_iff, !bool_decide_eq_true.
  intros [[Hs Hl] ?]. apply tensor_ok_length in Hl. rewrite Hs in Hl.
  by repeat split.
Qed.

Lemma batch_sampler_concat {A} fuel bs (l : list A) :
  0 < bs → length l ≤ fuel → concat (batch_sampler fuel bs l) = l.
Proof.
  intros Hbs. revert l. induction fuel as [|fuel IH]; intros l Hl.
  - by destruct l; [|simpl in Hl; lia].
  - destruct l as [|a l]; [done|].
    cbn [batch_sampler concat]. rewrite IH; [apply take_drop|].
    rewrite length_drop. simpl in *. lia.
Qed.

Lemma batch_sampler_Forall {A} (P : A → Prop) fuel bs (l : list A) :
  0 < bs → Forall P l →
  Forall (λ b, b ≠ [] ∧ Forall P b) (batch_sampler fuel bs l).
Proof.
  intros Hbs. revert l. induction fuel as [|fuel IH]; intros l Hl; [by destruct l|].
  destruct l as [|a l]; [done|]. cbn [batch_sampler]. constructor.
  - split; [by destruct bs; [lia|]|by apply Forall_take].
  - by apply IH, Forall_drop.
Qed.

Lemma batch_sampler_length {A} fuel bs (l : list A) :
  0 < bs → length l ≤ fuel →
  length (batch_sampler fuel bs l) = (length l + bs - 1) / bs.
Proof.
  intros Hbs. revert l. induction fuel as [|fuel IH]; intros l Hl.
  - destruct l; [|simpl in Hl; lia]. simpl. symmetry. apply Nat.div_small. lia.
  - destruct l as [|a l]; [simpl; symmetry; apply Nat.div_small; lia|].
    cbn [batch_sampler length]. rewrite IH by (rewrite length_drop; simpl in *; lia).
    rewrite length_drop. cbn [length].
    destruct (decide (S (length l) ≤ bs)) as [Hle|Hgt].
    + replace (S (length l) - bs) with 0 by lia.
      rewrite (Nat.div_small (0 + bs - 1)) by lia.
      apply (Nat.div_unique _ _ 1 (S (length l) - 1)); lia.
    + replace (S (length l) + bs - 1) with ((S (length l) - bs + bs - 1) + 1 * bs) by lia.
      rewrite Nat.div_add by lia. lia.
Qed.

(** The sizes of the batches: full ones, then the remainder if any. *)
Fixpoint batch_lengths (fuel bs n : nat) : list nat :=
  match fuel, n with
  | S fuel', S _ => min bs n :: batch_lengths fuel' bs (n - bs)
  | _, _ => []
  end.

Lemma batch_sampler_lengths {A} fuel bs (l : list A) :
  length <$> batch_sampler fuel bs l = batch_lengths fuel bs (length l).
Proof.
  revert l. induction fuel as [|fuel IH]; intros l; [by destruct l|].
  destruct l as [|a l]; [done|].
  cbn [batch_sampler fmap list_fmap length batch_lengths].
  by rewrite IH, length_take, length_drop.
Qed.

Lemma default_collate_ok b :
  b ≠ [] → Forall (λ s, sample_ok s = true) b → default_collate b = Ok (collated b).
Proof.
  intros Hb Hok. unfold default_collate, collated, stack.
  destruct b as [|s b]; [done|]. cbn [fmap list_fmap fst].
  rewrite Forall_forall in Hok.
  assert (Hshape : ∀ u, u ∈ s :: b → shape u.1 = [1; 28; 28]).
  { intros u Hu. by apply Hok, sample_ok_inv in Hu as [? _]. }
  replace (forallb _ _) with true.
  - rewrite bind_Ok. cbn [head from_option].
    by rewrite !length_cons, !length_fmap.
  - symmetry. apply forallb_Forall, Forall_forall.
    intros t Ht. apply bool_decide_eq_true.
    change (s.1 :: (b.*1)) with ((s :: b).*1) in Ht.
    apply list_elem_of_fmap in Ht as (u & -> & Hu).
    rewrite (Hshape s) by left. by apply Hshape.
Qed.

Lemma batches_wf dl :
  0 < batch_size dl → dataset_ok (dataset dl) = true →
  Forall (λ Xy, ∃ b, Xy = collated b ∧ b ≠ [] ∧ Forall (λ s, sample_ok s = true) b)
         (batches dl).
Proof.
  intros Hbs Hok. unfold batches. apply forallb_Forall in Hok.
  apply Forall_fmap.
  eapply Forall_impl; [by apply batch_sampler_Forall|].
  intros b [? ?]. by exists b.
Qed.

Lemma DataLoader_iter_ok dl :
  0 < batch_size dl → dataset_ok (dataset dl) = true →
  DataLoader_iter dl = Ok <$> batches dl.
Proof.
  intros Hbs Hok. unfold DataLoader_iter, batches.
  rewrite <- list_fmap_compose. apply list_fmap_ext. intros i b Hb. simpl.
  apply forallb_Forall in Hok.
  pose proof (batch_sampler_Forall _ (length (dataset dl)) _ _ Hbs Hok) as Hall.
  rewrite Forall_lookup in Hall. destruct (Hall _ _ Hb) as [? ?].
  by apply default_collate_ok.
Qed.

Lemma length_batches dl :
  0 < batch_size dl → length (batches dl) = DataLoader_len dl.
Proof.
  intros Hbs. unfold batches, DataLoader_len.
  rewrite length_fmap. by apply batch_sampler_length.
Qed.

(** ** Running programs *)

Lemma bind_run {A B} (c : prog A) (k : A → prog B) w a w1 :
  c w = Ok (a, w1) → bind c k w = k a w1.
Proof. intros Hc. unfold bind, prog_bind. by rewrite Hc. Qed.

Lemma bind_fail {A B} (c : prog A) (k : A → prog B) w e :
  c w = Raise e → bind c k w = Raise e.
Proof. intros Hc. unfold bind, prog_bind. by rewrite Hc. Qed.

Lemma collated_inv Xy :
  (∃ b, Xy = collated b ∧ b ≠ [] ∧ Forall (λ s, sample_ok s = true) b) →
  shape Xy.1 = [length Xy.2; 1; 28; 28] ∧ 0 < length Xy.2 ∧
  forallb (λ t, bool_decide (t < 10)) Xy.2 = true.
Proof.
  intros (b & -> & Hb & Hok). unfold collated. cbn [fst snd shape].
  rewrite length_fmap. destruct b as [|s0 b]; [done|]. cbn [head from_option].
  pose proof (Forall_inv Hok) as (-> & _)%sample_ok_inv.
  split; [done|]. split; [simpl; lia|].
  apply forallb_Forall, Forall_fmap. eapply Forall_impl; [done|].
  intros s (_ & _ & ?)%sample_ok_inv. simpl. by apply bool_decide_eq_true.
Qed.

Lemma world_eq (w1 w2 : world) :
  model w1 = model w2 → grad_enabled w1 = grad_enabled w2 → files w1 = files w2 →
  stdout w1 = stdout w2 → log w1 = log w2 → w1 = w2.
Proof. destruct w1, w2. simpl. by intros -> -> -> -> ->. Qed.

Lemma log_add_stdout ls w : log (add_stdout ls w) = log w.
Proof. done. Qed.

Lemma model_add_stdout ls w : model (add_stdout ls w) = model w.
Proof. done. Qed.

(** *** The library calls *)

Lemma call_model_run n X w :
  has_topology (net (model w)) = true → shape X = [n; 1; 28; 28] →
  call_model X w =
    Ok ({| value := spec_forward (net (model w)) X;
           pred_graph := if grad_enabled w then Some (net (model w), X) else None |},
        add_log [EvForward X (grad_enabled w)] w).
Proof.
  intros Hm HX. unfold call_model, get_model, is_grad_enabled, lift, emit, ret.
  unfold bind, prog_bind. by rewrite (forward_batch _ n).
Qed.

Lemma loss_fn_run (pred : Pred) n y w :
  shape (value pred) = [n; 10] → n = length y →
  forallb (λ t, bool_decide (t < 10)) y = true →
  loss_fn pred y w =
    Ok ({| item := ce_value (value pred) y;
           loss_graph := (λ g, (g.1, g.2, y)) <$> pred_graph pred |},
        add_log [EvLoss y] w).
Proof.
  intros Hp Hn Hy. unfold loss_fn. rewrite Hp.
  rewrite bool_decide_eq_true_2 by done. rewrite Hy.
  by unfold emit, ret, bind, prog_bind.
Qed.

(** *** One iteration of [train] *)

Lemma train_batch_run size i Xy w :
  has_topology (net (model w)) = true → grad_enabled w = true → grad (model w) = None →
  shape Xy.1 = [length Xy.2; 1; 28; 28] →
  forallb (λ t, bool_decide (t < 10)) Xy.2 = true →
  train_batch size (i, Ok Xy) w =
    Ok (tt, add_stdout (progress_line size i (net (model w)) Xy)
              (add_log (batch_events (net (model w)) Xy)
                 (with_model {| net := sgd (net (model w)) (autograd (net (model w)) Xy.1 Xy.2);
                                grad := None; training := training (model w) |} w))).
Proof.
  intros Hm Hg Hgrad HX Hy. destruct Xy as [X y]. cbn [fst snd] in *.
  unfold train_batch. cbn [fst snd].
  erewrite bind_run by done.
  erewrite bind_run by (by eapply call_model_run).
  erewrite bind_run by
    (eapply loss_fn_run; [by eapply spec_forward_shape|done..]).
  rewrite Hg. unfold backward, optimizer_step, optimizer_zero_grad, progress_line, batch_events.
  unfold get_model, put_model, emit, print, lift, ret, tensor_len, bind, prog_bind.
  cbn [value pred_graph item loss_graph fmap option_fmap option_map fst snd
       model grad net training with_model add_log add_stdout
       grad_enabled files stdout log].
  rewrite HX, Hgrad. cbn [accumulate].
  destruct (i `mod` 100 =? 0); do 2 f_equal; apply world_eq;
    cbn [model grad_enabled files stdout log add_stdout add_log with_model];
    by rewrite <- ?app_assoc, ?app_nil_r.
Qed.

Lemma train_batches_run size i bs w :
  has_topology (net (model w)) = true → grad_enabled w = true → grad (model w) = None →
  Forall (λ Xy, ∃ b, Xy = collated b ∧ b ≠ [] ∧ Forall (λ s, sample_ok s = true) b) bs →
  for_each (zip (seq i (length bs)) (Ok <$> bs)) (train_batch size) w =
    Ok (tt, add_stdout (progress_lines size i (net (model w)) bs)
              (add_log (train_events (net (model w)) bs)
                 (with_model {| net := sgd_pass (net (model w)) bs; grad := None;
                                training := training (model w) |} w))).
Proof using sgd_topology.
  intros Hm Hg Hgrad Hbs. revert i w Hm Hg Hgrad.
  induction Hbs as [|Xy bs HXy _ IH]; intros i w Hm Hg Hgrad.
  - cbn [length seq fmap list_fmap zip zip_with for_each progress_lines train_events].
    unfold ret, sgd_pass. cbn [foldl]. do 2 f_equal. apply world_eq; cbn; rewrite ?app_nil_r; try done.
    destruct (model w); simpl in *; by subst.
  - apply collated_inv in HXy as (HX & _ & Hy).
    cbn [length seq fmap list_fmap zip zip_with for_each].
    erewrite bind_run by (by apply train_batch_run).
    rewrite IH; [|by apply sgd_topology|done..].
    do 2 f_equal. apply world_eq;
      cbn [model grad_enabled files stdout log add_stdout add_log with_model
           net grad training progress_lines train_events];
      by rewrite <- ?app_assoc.
Qed.

(** *** [train] *)

Lemma train_run dl w :
  0 < batch_size dl → dataset_ok (dataset dl) = true →
  has_topology (net (model w)) = true → grad_enabled w = true → grad (model w) = None →
  train dl w = Ok (tt, after_train dl w).
Proof using sgd_topology.
  intros Hbs Hok Hm Hg Hgrad. unfold train, after_train, enumerate.
  erewrite bind_run by done.
  rewrite DataLoader_iter_ok, length_fmap by done.
  rewrite train_batches_run by (done || by apply batches_wf).
  do 2 f_equal.
Qed.

(** ** The evaluation loop *)

Lemma map_result_argmax (ls : list (list R)) :
  Forall (λ l, l ≠ []) ls → map_result argmax_list ls = Ok (argmax_total <$> ls).
Proof.
  induction 1 as [|l ls Hl _ IH]; [done|].
  cbn [map_result fmap list_fmap]. rewrite IH.
  by destruct l.
Qed.

Lemma length_filter_fmap {A B} (P : B → Prop) `{!∀ x, Decision (P x)} (f : A → B) (l : list A) :
  length (filter P (f <$> l)) = length (filter (P ∘ f) l).
Proof.
  induction l as [|a l IH]; [done|]. cbn [fmap list_fmap].
  rewrite !filter_cons. simpl. destruct (decide (P (f a))); simpl; by rewrite IH.
Qed.

Lemma rows_collated (b : list (tensor R * nat)) :
  Forall (λ s, sample_ok s = true) b →
  rows (length b) (28 * 28) (concat (data <$> b.*1)) = data <$> b.*1.
Proof.
  intros Hb. rewrite <- (length_fmap fst b), <- (length_fmap data (b.*1)).
  apply rows_concat. rewrite <- list_fmap_compose. apply Forall_fmap.
  eapply Forall_impl; [done|]. by intros s (_ & ? & _)%sample_ok_inv.
Qed.

(** The scores of a collated batch are the scores of its samples, row by row. *)
Lemma spec_forward_collated p (b : list (tensor R * nat)) :
  Forall (λ s, sample_ok s = true) b →
  spec_forward p (collated b).1 =
    Tensor [length b; 10] (concat ((λ s, spec_logits p (data s.1)) <$> b)).
Proof.
  intros Hb. unfold spec_forward, collated. cbn [fst shape data hd].
  rewrite rows_collated by done. by rewrite <- !list_fmap_compose.
Qed.

Lemma count_correct_collated p (b : list (tensor R * nat)) :
  has_topology p = true → Forall (λ s, sample_ok s = true) b →
  count_correct (spec_forward p (collated b).1) (collated b).2 =
    Ok (length (correct_samples p b)).
Proof.
  intros Hp Hb. rewrite spec_forward_collated by done.
  unfold count_correct, argmax1, collated. cbn [shape data snd].
  assert (Hlen : Forall (λ r, length r = 10) ((λ s, spec_logits p (data s.1)) <$> b)).
  { apply Forall_fmap, Forall_forall. intros s _. simpl. by apply length_spec_logits. }
  rewrite <- (length_fmap (λ s, spec_logits p (data s.1)) b) at 1.
  rewrite rows_concat by done.
  rewrite map_result_argmax by (eapply Forall_impl; [done|]; by intros [|] ?).
  rewrite bind_Ok, !length_fmap, bool_decide_eq_true_2 by done.
  f_equal. unfold correct_samples, predict.
  rewrite <- list_fmap_compose, zip_fmap_fmap.
  by rewrite length_filter_fmap.
Qed.

Lemma Qplus_inject_Z (a b : Z) : (inject_Z a + inject_Z b)%Q = inject_Z (a + b).
Proof. unfold Qplus, inject_Z. simpl. f_equal. lia. Qed.

Lemma correct_samples_app p (l1 l2 : Dataset) :
  length (correct_samples p (l1 ++ l2)) =
    length (correct_samples p l1) + length (correct_samples p l2).
Proof. unfold correct_samples. by rewrite filter_app, length_app. Qed.

Lemma test_batch_run (b : list (tensor R * nat)) tl (c : Z) w :
  has_topology (net (model w)) = true → grad_enabled w = false →
  b ≠ [] → Forall (λ s, sample_ok s = true) b →
  test_batch (Ok (collated b)) (tl, inject_Z c) w =
    Ok (((tl + ce_value (spec_forward (net (model w)) (collated b).1) (collated b).2)%Q,
         inject_Z (c + Z.of_nat (length (correct_samples (net (model w)) b)))),
        add_log [EvForward (collated b).1 false; EvLoss (collated b).2] w).
Proof.
  intros Hm Hg Hb Hok.
  destruct (collated_inv (collated b)) as (HX & _ & Hy); [by exists b|].
  unfold test_batch. cbn [fst snd].
  erewrite bind_run by done.
  erewrite bind_run by (by eapply call_model_run).
  erewrite bind_run by
    (eapply loss_fn_run; [by eapply spec_forward_shape|done..]).
  cbn [value item]. rewrite count_correct_collated by done.
  rewrite Hg. unfold lift, ret, bind, prog_bind. rewrite Qplus_inject_Z.
  do 2 f_equal. apply world_eq; cbn; by rewrite <- ?app_assoc.
Qed.

Lemma test_batches_run (gs : list (list (tensor R * nat))) tl (c : Z) w :
  has_topology (net (model w)) = true → grad_enabled w = false →
  Forall (λ b, b ≠ [] ∧ Forall (λ s, sample_ok s = true) b) gs →
  for_fold (Ok <$> (collated <$> gs)) test_batch (tl, inject_Z c) w =
    Ok ((foldl Qplus tl (batch_losses (net (model w)) (collated <$> gs)),
         inject_Z (c + Z.of_nat (length (correct_samples (net (model w)) (concat gs))))),
        add_log (test_events (collated <$> gs)) w).
Proof.
  intros Hm Hg Hgs. revert tl c w Hm Hg.
  induction Hgs as [|b gs [Hb Hok] _ IH]; intros tl c w Hm Hg.
  - cbn. unfold ret. rewrite Z.add_0_r. do 2 f_equal.
    apply world_eq; cbn; by rewrite ?app_nil_r.
  - cbn [fmap list_fmap for_fold].
    erewrite bind_run by (by apply test_batch_run).
    rewrite IH by done. cbn [concat]. rewrite correct_samples_app.
    unfold batch_losses, test_events. cbn [fmap list_fmap foldl mbind list_bind model add_log net].
    f_equal. f_equal; [f_equal; f_equal; lia|].
    apply world_eq; cbn; by rewrite <- ?app_assoc.
Qed.

Lemma batches_nonempty dl : dataset dl ≠ [] → batches dl ≠ [].
Proof. unfold batches. by destruct (dataset dl). Qed.

Lemma py_div_ok a n : n ≠ 0 → py_div a n = Ok (a / inject_Z (Z.of_nat n))%Q.
Proof. intros Hn. unfold py_div. by destruct n. Qed.

Lemma test_run dl w :
  0 < batch_size dl → dataset_ok (dataset dl) = true → dataset dl ≠ [] →
  has_topology (net (model w)) = true →
  test dl w = Ok (tt, after_test dl w).
Proof.
  intros Hbs Hok Hne Hm. unfold test, after_test.
  erewrite bind_run by done.
  unfold with_no_grad.
  erewrite (bind_run (bind is_grad_enabled _)); cycle 1.
  { erewrite bind_run by done. erewrite bind_run by done.
    rewrite DataLoader_iter_ok by done. unfold batches.
    erewrite bind_run; cycle 1.
    { apply (test_batches_run _ _ 0); [done..|].
      apply batch_sampler_Forall; [done|by apply forallb_Forall]. }
    erewrite bind_run by done. done. }
  cbn [fst snd net model with_grad_enabled with_model].
  rewrite batch_sampler_concat by done.
  rewrite <- length_batches by done.
  assert (length (batches dl) ≠ 0).
  { pose proof (batches_nonempty dl Hne). by destruct (batches dl). }
  assert (length (dataset dl) ≠ 0) by (by destruct (dataset dl)).
  unfold lift. rewrite !py_div_ok by done.
  by unfold ret, print, bind, prog_bind.
Qed.

Lemma test_empty dl w : dataset dl = [] → test dl w = Raise ZeroDivisionError.
Proof.
  intros Hds. unfold test, DataLoader_iter, DataLoader_len. rewrite Hds.
  cbn [length batch_sampler fmap list_fmap].
  replace ((0 + batch_size dl - 1) `div` batch_size dl) with 0; [done|].
  destruct (batch_size dl) as [|n]; [done|]. symmetry. apply Nat.div_small. lia.
Qed.

(** ** The epoch loop *)

Lemma sgd_pass_topology p bs : has_topology p = true → has_topology (sgd_pass p bs) = true.
Proof using sgd_topology.
  unfold sgd_pass. revert p. induction bs as [|Xy bs IH]; intros p Hp; [done|].
  cbn [foldl]. by apply IH, sgd_topology.
Qed.

Lemma epoch_run tr te t w :
  0 < batch_size tr → dataset_ok (dataset tr) = true →
  0 < batch_size te → dataset_ok (dataset te) = true → dataset te ≠ [] →
  has_topology (net (model w)) = true → grad_enabled w = true → grad (model w) = None →
  epoch tr te t w = Ok (tt, after_epoch tr te t w).
Proof using sgd_topology.
  intros. unfold epoch, after_epoch.
  erewrite bind_run by done.
  erewrite bind_run by (by apply train_run).
  apply test_run; try done. by apply sgd_pass_topology.
Qed.

Lemma after_epoch_inv tr te t w :
  has_topology (net (model w)) = true → grad_enabled w = true → grad (model w) = None →
  has_topology (net (model (after_epoch tr te t w))) = true ∧
  grad_enabled (after_epoch tr te t w) = true ∧
  grad (model (after_epoch tr te t w)) = None.
Proof using sgd_topology. intros Hm Hg Hgrad. cbn. split; [by apply sgd_pass_topology|done]. Qed.

Lemma epochs_run tr te ts w :
  0 < batch_size tr → dataset_ok (dataset tr) = true →
  0 < batch_size te → dataset_ok (dataset te) = true → dataset te ≠ [] →
  has_topology (net (model w)) = true → grad_enabled w = true → grad (model w) = None →
  for_each ts (epoch tr te) w = Ok (tt, after_epochs tr te ts w).
Proof using sgd_topology.
  intros ? ? ? ? ?. revert w. induction ts as [|t ts IH]; intros w Hm Hg Hgrad; [done|].
  cbn [for_each after_epochs].
  erewrite bind_run by (by apply epoch_run).
  destruct (after_epoch_inv tr te t w) as (? & ? & ?); [done..|].
  by apply IH.
Qed.

Lemma run_epochs_run tr te w :
  0 < batch_size tr → dataset_ok (dataset tr) = true →
  0 < batch_size te → dataset_ok (dataset te) = true → dataset te ≠ [] →
  has_topology (net (model w)) = true → grad_enabled w = true → grad (model w) = None →
  run_epochs tr te w = Ok (tt, add_stdout [LineDone] (after_epochs tr te (seq 0 epochs) w)).
Proof using sgd_topology.
  intros. unfold run_epochs. by erewrite bind_run by (by apply epochs_run).
Qed.

(** *** The order of the library calls *)

Lemma train_events_ops p bs : op_of <$> train_events p bs = train_ops bs.
Proof.
  revert p. induction bs as [|Xy bs IH]; intros p; [done|].
  cbn [train_events]. rewrite fmap_app, IH. done.
Qed.

Lemma test_events_ops bs : op_of <$> test_events bs = test_ops bs.
Proof.
  induction bs as [|Xy bs IH]; [done|].
  unfold test_events, test_ops in *. cbn [mbind list_bind]. rewrite fmap_app, IH. done.
Qed.

Lemma after_epoch_ops tr te t w :
  op_of <$> log (after_epoch tr te t w) =
    (op_of <$> log w) ++ train_ops (batches tr) ++ test_ops (batches te).
Proof.
  cbn. by rewrite !fmap_app, train_events_ops, test_events_ops, <- app_assoc.
Qed.

Lemma after_epochs_ops tr te ts w :
  op_of <$> log (after_epochs tr te ts w) =
    (op_of <$> log w)
    ++ concat (replicate (length ts) (train_ops (batches tr) ++ test_ops (batches te))).
Proof.
  revert w. induction ts as [|t ts IH]; intros w; [by rewrite app_nil_r|].
  cbn [after_epochs length replicate concat].
  by rewrite IH, after_epoch_ops, <- !app_assoc.
Qed.

(** *** Gradients never accumulate across batches *)

Lemma single_batch_updates_app l1 l2 :
  single_batch_updates l1 → single_batch_updates l2 → single_batch_updates (l1 ++ l2).
Proof.
  intros H1 H2. induction l1 as [l1 IH] using (induction_ltof1 _ length).
  unfold ltof in IH.
  destruct l1 as [|[| |p X y before| |] l1]; cbn in *; try done;
    try (apply IH; [lia|done]).
  destruct H1 as [-> H1]. split; [done|].
  destruct l1 as [|[| | |used|] l1]; try done.
  destruct H1 as [-> H1]. split; [done|]. apply IH; [simpl; lia|done].
Qed.

Lemma train_events_single p bs : single_batch_updates (train_events p bs).
Proof. revert p. induction bs as [|Xy bs IH]; intros p; [done|]. cbn. auto. Qed.

Lemma test_events_single bs : single_batch_updates (test_events bs).
Proof. induction bs as [|Xy bs IH]; [done|]. by cbn. Qed.

Lemma after_epochs_log tr te ts w :
  ∃ evs, log (after_epochs tr te ts w) = log w ++ evs ∧ single_batch_updates evs.
Proof.
  revert w. induction ts as [|t ts IH]; intros w.
  - exists []. by rewrite app_nil_r.
  - cbn [after_epochs]. destruct (IH (after_epoch tr te t w)) as (evs & -> & Hevs).
    eexists. split; [cbn; by rewrite <- !app_assoc|].
    repeat apply single_batch_updates_app;
      auto using train_events_single, test_events_single.
Qed.

Lemma after_epochs_net tr te ts w :
  net (model (after_epochs tr te ts w)) =
    foldl (λ p _, sgd_pass p (batches tr)) (net (model w)) ts.
Proof. revert w. induction ts as [|t ts IH]; intros w; [done|]. cbn. by rewrite IH. Qed.

Lemma after_epochs_grad tr te ts w :
  grad (model w) = None → grad (model (after_epochs tr te ts w)) = None.
Proof. revert w. induction ts as [|t ts IH]; intros w Hw; [done|]. by apply IH. Qed.

(** ** Saving and loading *)

Lemma named_parameters_topology self l0 l2 l4 :
  linear_relu_stack self = [ModLinear l0; ModReLU; ModLinear l2; ModReLU; ModLinear l4] →
  named_parameters self =
    [ ("linear_relu_stack.0.weight", weight l0); ("linear_relu_stack.0.bias", bias l0);
      ("linear_relu_stack.2.weight", weight l2); ("linear_relu_stack.2.bias", bias l2);
      ("linear_relu_stack.4.weight", weight l4); ("linear_relu_stack.4.bias", bias l4) ].
Proof. intros Hs. unfold named_parameters. by rewrite Hs. Qed.

Lemma filter_nil_Forall {A} (P : A → Prop) `{!∀ x, Decision (P x)} (l : list A) :
  filter P l = [] ↔ Forall (λ x, ¬ P x) l.
Proof.
  induction l as [|a l IH]; [by split|].
  rewrite filter_cons, Forall_cons. destruct (decide (P a)) as [Ha|Ha].
  - split; [done|]. by intros [? _].
  - rewrite IH. split; [done|]. by intros [_ ?].
Qed.

(** [load_state_dict] succeeds exactly when the stored keys are the model's
    own and every stored tensor has the shape of the parameter it replaces. *)
Lemma load_state_dict_Ok self sd m' :
  load_state_dict self sd = Ok m' ↔
    (∀ k p, (k, p) ∈ named_parameters self → ∃ t, sd !! k = Some t ∧ shape t = shape p) ∧
    (∀ k, k ∈ dom sd → k ∈ (named_parameters self).*1) ∧
    m' = {| flatten := flatten self;
            linear_relu_stack :=
              imap (λ i m, Module_load ("linear_relu_stack." +:+ pretty i +:+ ".") sd m)
                   (linear_relu_stack self) |}.
Proof.
  unfold load_state_dict.
  set (own := named_parameters self).
  destruct (filter (λ kp, is_missing sd kp) own) as [|? ?] eqn:Hmiss; cycle 1.
  { split; [done|]. intros (Hshape & _ & _). exfalso.
    assert (Hin : p ∈ filter (λ kp, is_missing sd kp) own) by (rewrite Hmiss; left).
    apply list_elem_of_filter in Hin as [Hp Hin]. destruct p as [k p].
    destruct (Hshape _ _ Hin) as (t & Ht & _).
    unfold is_missing in Hp. cbn [fst] in Hp. by rewrite Ht in Hp. }
  destruct (filter (λ k, k ∉ own.*1) (elements (dom sd))) as [|? ?] eqn:Hunexp; cycle 1.
  { split; [done|]. intros (_ & Hdom & _). exfalso.
    assert (Hin : s ∈ filter (λ k, k ∉ own.*1) (elements (dom sd))) by (rewrite Hunexp; left).
    apply list_elem_of_filter in Hin as [Hs Hin]. apply Hs, Hdom. by apply elem_of_elements. }
  destruct (filter (λ kp, is_size_mismatch sd kp) own) as [|? ?] eqn:Hmis; cycle 1.
  { split; [done|]. intros (Hshape & _ & _). exfalso.
    assert (Hin : p ∈ filter (λ kp, is_size_mismatch sd kp) own) by (rewrite Hmis; left).
    apply list_elem_of_filter in Hin as [Hp Hin]. destruct p as [k p].
    destruct (Hshape _ _ Hin) as (t & Ht & Hsh).
    unfold is_size_mismatch in Hp. cbn [fst snd] in Hp. rewrite Ht in Hp.
    by rewrite bool_decide_eq_true_2 in Hp. }
  apply filter_nil_Forall in Hmiss. apply filter_nil_Forall in Hunexp.
  apply filter_nil_Forall in Hmis.
  rewrite Forall_forall in Hmiss. rewrite Forall_forall in Hunexp.
  rewrite Forall_forall in Hmis.
  split.
  - intros [= <-]. split_and!; [|  |done].
    + intros k p Hin. specialize (Hmiss _ Hin). specialize (Hmis _ Hin).
      unfold is_missing, is_size_mismatch in *. cbn [fst snd] in *.
      destruct (sd !! k) as [t|]; [|done]. exists t. split; [done|].
      by destruct (decide (shape t = shape p)) as [|Hne];
        [|rewrite bool_decide_eq_false_2 in Hmis].
    + intros k Hk. apply elem_of_elements in Hk. specialize (Hunexp _ Hk).
      by destruct (decide (k ∈ own.*1)).
  - by intros (_ & _ & ->).
Qed.

Lemma load_state_dict_Raise self sd :
  (∃ k p, (k, p) ∈ named_parameters self ∧ ∀ t, sd !! k = Some t → shape t ≠ shape p) →
  load_state_dict self sd =
    Raise (RuntimeError "Error(s) in loading state_dict for NeuralNetwork").
Proof.
  intros (k & p & Hin & Hne).
  destruct (load_state_dict self sd) as [m'|e] eqn:Hload.
  - apply load_state_dict_Ok in Hload as (Hshape & _).
    destruct (Hshape _ _ Hin) as (t & Ht & Hsh). by destruct (Hne _ Ht).
  - unfold load_state_dict in Hload.
    by repeat (destruct (filter _ _) in Hload); simplify_eq.
Qed.

Lemma load_stack sd l0 l2 l4 :
  imap (λ i m, Module_load ("linear_relu_stack." +:+ pretty i +:+ ".") sd m)
       [ModLinear l0; ModReLU; ModLinear l2; ModReLU; ModLinear l4] =
    [ ModLinear {| in_features := in_features l0; out_features := out_features l0;
                   weight := default (weight l0) (sd !! "linear_relu_stack.0.weight");
                   bias := default (bias l0) (sd !! "linear_relu_stack.0.bias") |};
      ModReLU;
      ModLinear {| in_features := in_features l2; out_features := out_features l2;
                   weight := default (weight l2) (sd !! "linear_relu_stack.2.weight");
                   bias := default (bias l2) (sd !! "linear_relu_stack.2.bias") |};
      ModReLU;
      ModLinear {| in_features := in_features l4; out_features := out_features l4;
                   weight := default (weight l4) (sd !! "linear_relu_stack.4.weight");
                   bias := default (bias l4) (sd !! "linear_relu_stack.4.bias") |} ].
Proof. done. Qed.

Lemma Linear_eta (l l' : Linear) inf outf :
  Linear_ok inf outf l = true → Linear_ok inf outf l' = true →
  {| in_features := in_features l'; out_features := out_features l';
     weight := weight l; bias := bias l |} = l.
Proof.
  intros (? & ? & _)%Linear_ok_inv (? & ? & _)%Linear_ok_inv.
  destruct l, l'; simpl in *. by subst.
Qed.

(** Loading a model's own state into any model of the same topology gives
    that model back. *)
Lemma load_state_dict_roundtrip self0 self :
  has_topology self0 = true → has_topology self = true →
  load_state_dict self0 (state_dict self) = Ok self.
Proof.
  clear sgd_topology ce_nonneg pickle_roundtrip.
  intros (Hf0 & k0 & k2 & k4 & Hs0 & K0 & K2 & K4)%has_topology_inv.
  intros (Hf & l0 & l2 & l4 & Hs & L0 & L2 & L4)%has_topology_inv.
  apply load_state_dict_Ok. unfold state_dict.
  rewrite (named_parameters_topology _ _ _ _ Hs0), (named_parameters_topology _ _ _ _ Hs).
  cbn [list_to_map foldr fst snd].
  pose proof (Linear_ok_inv _ _ _ K0) as (_ & _ & ? & _ & ? & _).
  pose proof (Linear_ok_inv _ _ _ K2) as (_ & _ & ? & _ & ? & _).
  pose proof (Linear_ok_inv _ _ _ K4) as (_ & _ & ? & _ & ? & _).
  pose proof (Linear_ok_inv _ _ _ L0) as (_ & _ & ? & _ & ? & _).
  pose proof (Linear_ok_inv _ _ _ L2) as (_ & _ & ? & _ & ? & _).
  pose proof (Linear_ok_inv _ _ _ L4) as (_ & _ & ? & _ & ? & _).
  split_and!.
  - intros k p Hin. repeat (apply elem_of_cons in Hin as [[= -> ->]|Hin]);
      [..|by apply elem_of_nil in Hin]; eexists; (split; [by simplify_map_eq|congruence]).
  - intros k Hk. rewrite !dom_insert_L, dom_empty_L in Hk.
    cbn [fmap list_fmap fst]. set_solver.
  - rewrite Hs0, load_stack. simplify_map_eq. cbn [default].
    rewrite (Linear_eta l0 k0 _ _ L0 K0), (Linear_eta l2 k2 _ _ L2 K2),
      (Linear_eta l4 k4 _ _ L4 K4).
    rewrite Hf0, <- Hf, <- Hs. by destruct self.
Qed.

Lemma save_cell_run w :
  save_cell w =
    Ok (tt, add_stdout [LineSaved]
              (with_files (<["model.pth" := pickle_dumps (state_dict (net (model w)))]>
                             (files w)) w)).
Proof. done. Qed.

Lemma torch_load_run path w b sd :
  files w !! path = Some b → pickle_loads b = Some sd → torch_load path w = Ok (sd, w).
Proof.
  intros Hb Hsd. unfold torch_load. erewrite bind_run by done. by rewrite Hb, Hsd.
Qed.

Lemma load_cell_run gen w b sd net' :
  files w !! "model.pth" = Some b → pickle_loads b = Some sd →
  load_state_dict (NeuralNetwork_init gen) sd = Ok net' →
  load_cell gen w =
    Ok (tt, with_model {| net := net'; grad := None; training := true |} w).
Proof.
  intros Hb Hsd Hload. unfold load_cell, fresh_module.
  erewrite bind_run by done.
  erewrite bind_run by (by eapply torch_load_run).
  erewrite bind_run by done. cbn [model with_model net].
  rewrite Hload. unfold lift, put_model, bind, prog_bind. do 2 f_equal.
Qed.

Lemma load_cell_Raise gen w b sd e :
  files w !! "model.pth" = Some b → pickle_loads b = Some sd →
  load_state_dict (NeuralNetwork_init gen) sd = Raise e →
  load_cell gen w = Raise e.
Proof.
  intros Hb Hsd Hload. unfold load_cell, fresh_module.
  erewrite bind_run by done.
  erewrite bind_run by (by eapply torch_load_run).
  erewrite bind_run by done. cbn [model with_model net].
  rewrite Hload. done.
Qed.

(** ** Single-sample prediction *)

Lemma argmax_from_lt best_i best i (l : list R) :
  best_i < i → argmax_from best_i best i l < i + length l.
Proof.
  revert best_i best i. induction l as [|x l IH]; intros best_i best i Hi; [simpl; lia|].
  cbn [argmax_from length]. destruct (s_gt x best).
  - specialize (IH i x (S i)). lia.
  - specialize (IH best_i best (S i)). lia.
Qed.

Lemma argmax_total_lt (l : list R) : l ≠ [] → argmax_total l < length l.
Proof.
  destruct l as [|x l]; [done|]. intros _. cbn [argmax_total length].
  pose proof (argmax_from_lt 0 x 1 l). lia.
Qed.

Lemma predict_lt p x : has_topology p = true → predict p x < 10.
Proof.
  intros Hp. unfold predict.
  pose proof (length_spec_logits p (data x) Hp) as Hlen.
  rewrite <- Hlen. apply argmax_total_lt. by destruct (spec_logits p (data x)).
Qed.

Lemma rows_1 {A} k (d : list A) : length d = k → rows 1 k d = [d].
Proof. intros <-. unfold rows. cbn. by rewrite firstn_all. Qed.

Lemma spec_forward_sample p (x : tensor R) :
  shape x = [1; 28; 28] → length (data x) = 28 * 28 →
  spec_forward p x = Tensor [1; 10] (spec_logits p (data x) ++ []).
Proof.
  intros Hx Hlen. unfold spec_forward. rewrite Hx. cbn [hd].
  by rewrite rows_1.
Qed.

(** The first row of the scores of one image, and the index of its maximum. *)
Lemma select_argmax_sample p (x : tensor R) :
  has_topology p = true → shape x = [1; 28; 28] → length (data x) = 28 * 28 →
  select (spec_forward p x) 0 = Ok (Tensor [10] (spec_logits p (data x))) ∧
  argmax0 (Tensor [10] (spec_logits p (data x))) = Ok (predict p x).
Proof.
  intros Hp Hx Hlen. rewrite spec_forward_sample by done.
  pose proof (length_spec_logits p (data x) Hp) as Hl.
  split.
  - unfold select. cbn [shape data]. rewrite bool_decide_eq_true_2 by lia.
    rewrite app_nil_r, numel_cons, numel_nil, Nat.mul_1_r. cbn [drop].
    by rewrite <- Hl, firstn_all.
  - unfold argmax0, predict. cbn [shape data].
    by destruct (spec_logits p (data x)).
Qed.

Lemma call_model_sample (x : tensor R) w :
  has_topology (net (model w)) = true → shape x = [1; 28; 28] →
  call_model x w =
    Ok ({| value := spec_forward (net (model w)) x;
           pred_graph := if grad_enabled w then Some (net (model w), x) else None |},
        add_log [EvForward x (grad_enabled w)] w).
Proof.
  intros Hm HX. unfold call_model, get_model, is_grad_enabled, lift, emit, ret.
  unfold bind, prog_bind. by rewrite forward_sample.
Qed.

Lemma list_index_Some {A} (l : list A) i a : l !! i = Some a → list_index l i = Ok a.
Proof. intros Hi. unfold list_index. by rewrite Hi. Qed.

Lemma predict_cell_run (test_data : Dataset) x y predicted actual w :
  has_topology (net (model w)) = true →
  test_data !! 1 = Some (x, y) → sample_ok (x, y) = true →
  classes !! predict (net (model w)) x = Some predicted →
  classes !! y = Some actual →
  predict_cell test_data w =
    Ok (tt, add_stdout [LinePredicted predicted actual]
              (add_log [EvForward x false]
                 (with_model {| net := net (model w); grad := grad (model w);
                                training := false |} w))).
Proof.
  intros Hm Hs (Hx & Hlen & Hy)%sample_ok_inv Hp Ha. cbn [fst snd] in *.
  destruct (select_argmax_sample _ x Hm Hx Hlen) as [Hsel Harg].
  unfold predict_cell.
  erewrite bind_run by done.
  erewrite bind_run by (unfold lift; by erewrite list_index_Some).
  cbn [fst snd]. unfold with_no_grad.
  erewrite bind_run by done. erewrite bind_run by done.
  erewrite (bind_run (bind (call_model x) _)); cycle 1.
  { erewrite bind_run by (by apply call_model_sample).
    cbn [value net model with_grad_enabled with_model]. unfold lift.
    unfold bind at 1, prog_bind at 1. rewrite Hsel.
    unfold bind at 1, prog_bind at 1. rewrite Harg.
    erewrite !list_index_Some by done. done. }
  by unfold set_grad_enabled, ret, bind, prog_bind.
Qed.

(** * The claims *)

(** C1.  On a batch of shape (n, 1, 28, 28), [forward] returns exactly what
    the specification describes: each sample flattened to 784 values and
    sent through linear 784→512, ReLU, linear 512→512, ReLU, linear 512→10,
    the last layer's output untouched; the result has shape (n, 10), for
    every n. *)
Theorem forward_is_mlp self n (x : tensor R) :
  has_topology self = true → shape x = [n; 1; 28; 28] →
  forward self x = Ok (spec_forward self x) ∧
  shape (spec_forward self x) = [n; 10] ∧
  data (spec_forward self x) = concat (spec_logits self <$> rows n (28 * 28) (data x)) ∧
  length (data (spec_forward self x)) = n * 10.
Proof.
  intros Hm Hx. split_and!.
  - by eapply forward_batch.
  - by eapply spec_forward_shape.
  - unfold spec_forward. by rewrite Hx.
  - pose proof (spec_forward_ok self x Hm) as Hok. apply tensor_ok_length in Hok.
    rewrite Hok, (spec_forward_shape _ _ _ _ Hx), !numel_cons, numel_nil. lia.
Qed.


(** C3.  After a full evaluation pass the average loss printed is the sum of
    the per-batch losses divided by the number of batches, and the accuracy
    printed (as a percentage) is the number of samples whose largest score
    sits at the index of their label, divided by the number of samples.  On
    an empty split the division by the number of batches raises and nothing
    is printed. *)
Theorem test_reports_metrics dl w :
  0 < batch_size dl → dataset_ok (dataset dl) = true →
  has_topology (net (model w)) = true →
  DataLoader_iter dl = Ok <$> batches dl ∧
  length (batches dl) = DataLoader_len dl ∧
  (∀ s, s ∈ dataset dl →
     ∃ row, (pred ← forward (net (model w)) s.1; select pred 0) = Ok row ∧
            argmax0 row = Ok (predict (net (model w)) s.1)) ∧
  ((dataset dl = [] ∧ test dl w = Raise ZeroDivisionError) ∨
   (∃ w', test dl w = Ok (tt, w') ∧
      stdout w' = stdout w ++
        [LineTestError
           (100 * (inject_Z (Z.of_nat (length (correct_samples (net (model w)) (dataset dl))))
                   / inject_Z (Z.of_nat (length (dataset dl)))))%Q
           (Qsum (batch_losses (net (model w)) (batches dl))
            / inject_Z (Z.of_nat (length (batches dl))))%Q])).
Proof.
  intros Hbs Hok Hm. split_and!.
  - by apply DataLoader_iter_ok.
  - by apply length_batches.
  - intros s Hs. apply forallb_Forall in Hok. rewrite Forall_forall in Hok.
    apply Hok, sample_ok_inv in Hs as (Hx & Hlen & _).
    rewrite forward_sample, bind_Ok by done.
    destruct (select_argmax_sample _ s.1 Hm Hx Hlen) as [-> ?]. by eexists.
  - destruct (decide (dataset dl = [])) as [Hds|Hds].
    + left. split; [done|]. by apply test_empty.
    + right. eexists. split; [by apply test_run|]. done.
Qed.

(** ** Bounds on the metrics *)

Lemma Qsum_nonneg_aux (l : list Q) a :
  (0 <= a)%Q → Forall (λ x, (0 <= x)%Q) l → (0 <= foldl Qplus a l)%Q.
Proof.
  intros Ha Hl. revert a Ha. induction Hl as [|x l Hx _ IH]; intros a Ha; [done|].
  cbn [foldl]. apply IH.
  rewrite <- (Qplus_0_r 0). by apply Qplus_le_compat.
Qed.

Lemma average_nonneg (l : list Q) n :
  Forall (λ x, (0 <= x)%Q) l → (0 <= Qsum l / inject_Z (Z.of_nat n))%Q.
Proof.
  intros Hl. apply Qmult_le_0_compat.
  - by apply Qsum_nonneg_aux.
  - apply Qinv_le_0_compat. rewrite <- (Zle_Qle 0). lia.
Qed.

Lemma ratio_bounds (a b : nat) :
  a ≤ b →
  (0 <= inject_Z (Z.of_nat a) / inject_Z (Z.of_nat b))%Q ∧
  (inject_Z (Z.of_nat a) / inject_Z (Z.of_nat b) <= 1)%Q.
Proof.
  intros Hab. split.
  - apply Qmult_le_0_compat; [|apply Qinv_le_0_compat]; rewrite <- (Zle_Qle 0); lia.
  - destruct b as [|b].
    + replace a with 0 by lia. done.
    + apply Qle_shift_div_r; [rewrite <- (Zlt_Qlt 0); lia|].
      rewrite Qmult_1_l, <- Zle_Qle. lia.
Qed.

(** C6.  Whatever the evaluation loop prints, the accuracy lies in [0, 1]
    (it is printed as 100 times that fraction) and the average loss is not
    negative. *)
Theorem test_metrics_bounds dl w :
  0 < batch_size dl → dataset_ok (dataset dl) = true →
  has_topology (net (model w)) = true →
  (dataset dl = [] ∧ test dl w = Raise ZeroDivisionError) ∨
  (∃ w' accuracy avg_loss,
     test dl w = Ok (tt, w') ∧
     stdout w' = stdout w ++ [LineTestError (100 * accuracy)%Q avg_loss] ∧
     (0 <= accuracy)%Q ∧ (accuracy <= 1)%Q ∧ (0 <= avg_loss)%Q).
Proof using ce_nonneg.
  intros Hbs Hok Hm.
  destruct (decide (dataset dl = [])) as [Hds|Hds].
  - left. split; [done|]. by apply test_empty.
  - right. do 3 eexists. split; [by apply test_run|]. split; [done|].
    unfold accuracy, average_loss.
    destruct (ratio_bounds (length (correct_samples (net (model w)) (dataset dl)))
                (length (dataset dl))) as [? ?].
    { unfold correct_samples. apply length_filter. }
    split_and!; [done..|].
    apply average_nonneg, Forall_fmap, Forall_forall. intros Xy _. apply ce_nonneg.
Qed.

(** C7.  Two evaluation passes in a row over the same split print the same
    accuracy and the same average loss: a pass only calls the model and the
    loss, without tracking, and leaves parameters and gradients as they
    were (and it sets inference mode, so the second pass changes nothing). *)
Theorem test_twice_same_report dl w :
  0 < batch_size dl → dataset_ok (dataset dl) = true →
  has_topology (net (model w)) = true →
  (dataset dl = [] ∧ ∀ v, test dl v = Raise ZeroDivisionError) ∨
  (∃ w1 w2 report,
     test dl w = Ok (tt, w1) ∧ test dl w1 = Ok (tt, w2) ∧
     stdout w1 = stdout w ++ [report] ∧ stdout w2 = stdout w1 ++ [report] ∧
     net (model w1) = net (model w) ∧ grad (model w1) = grad (model w) ∧
     model w2 = model w1 ∧
     op_of <$> drop (length (log w)) (log w1) = test_ops (batches dl)).
Proof.
  intros Hbs Hok Hm.
  destruct (decide (dataset dl = [])) as [Hds|Hds].
  - left. split; [done|]. intros v. by apply test_empty.
  - right. exists (after_test dl w), (after_test dl (after_test dl w)). eexists.
    split_and!; try done.
    + by apply test_run.
    + by apply test_run.
    + cbn. by rewrite drop_app_length, test_events_ops.
Qed.

(** C9.  In the notebook's run from a freshly constructed model, every
    backward pass finds no pending gradient and every optimizer step reads
    the gradient of exactly the batch just differentiated; the parameters at
    the end are those of plain minibatch SGD, and no gradient is left. *)
Theorem gradients_fresh_each_batch gen fs tr te :
  0 < batch_size tr → dataset_ok (dataset tr) = true →
  0 < batch_size te → dataset_ok (dataset te) = true → dataset te ≠ [] →
  ∃ w', run_epochs tr te (initial_world gen fs) = Ok (tt, w') ∧
        single_batch_updates (log w') ∧
        op_of <$> log w' =
          concat (replicate 5 (train_ops (batches tr) ++ test_ops (batches te))) ∧
        grad (model w') = None ∧
        net (model w') =
          foldl (λ p _, sgd_pass p (batches tr)) (NeuralNetwork_init gen) (seq 0 epochs).
Proof using sgd_topology.
  intros Hbs Hok Hbs' Hok' Hne.
  pose proof (NeuralNetwork_init_topology gen) as Hm.
  eexists. split; [by apply run_epochs_run|].
  rewrite log_add_stdout, model_add_stdout. split_and!.
  - destruct (after_epochs_log tr te (seq 0 epochs) (initial_world gen fs))
      as (evs & -> & Hevs). done.
  - by rewrite after_epochs_ops, length_seq.
  - by apply after_epochs_grad.
  - by rewrite after_epochs_net.
Qed.

(** C10.  For one sample of shape (1, 28, 28), [forward] gives scores of
    shape (1, 10); the index of the largest score of the first row is below
    10, so [classes] can be indexed with it, and with the sample's label;
    the prediction cell prints both names. *)
Theorem prediction_in_range (test_data : Dataset) x y w :
  has_topology (net (model w)) = true →
  test_data !! 1 = Some (x, y) → sample_ok (x, y) = true →
  ∃ pred row predicted actual,
    forward (net (model w)) x = Ok pred ∧ shape pred = [1; 10] ∧
    select pred 0 = Ok row ∧ argmax0 row = Ok (predict (net (model w)) x) ∧
    predict (net (model w)) x < 10 ∧
    list_index classes (predict (net (model w)) x) = Ok predicted ∧
    list_index classes y = Ok actual ∧
    ∃ w', predict_cell test_data w = Ok (tt, w') ∧
          stdout w' = stdout w ++ [LinePredicted predicted actual].
Proof.
  intros Hm Hs Hok.
  pose proof (sample_ok_inv _ Hok) as (Hx & Hlen & Hy). cbn [fst snd] in *.
  destruct (select_argmax_sample _ x Hm Hx Hlen) as [Hsel Harg].
  pose proof (predict_lt _ x Hm) as Hlt.
  destruct (lookup_lt_is_Some_2 classes (predict (net (model w)) x)) as [predicted Hp];
    [done|].
  destruct (lookup_lt_is_Some_2 classes y) as [actual Ha]; [done|].
  exists (spec_forward (net (model w)) x). do 3 eexists. split_and!.
  - by apply forward_sample.
  - by eapply spec_forward_shape.
  - done.
  - done.
  - done.
  - by apply list_index_Some.
  - by apply list_index_Some.
  - eexists. split; [by eapply predict_cell_run|]. done.
Qed.

(** C4.  Saving a model's parameters and loading the file into a freshly
    constructed model gives that model the saved parameters, hence the same
    output on every input: the new model starts from its own initial values
    [gen] and ends with the saved ones, whatever model the interpreter held
    when the load cell ran. *)
Theorem save_load_roundtrip gen w :
  has_topology (net (model w)) = true →
  ∃ w1,
    save_cell w = Ok (tt, w1) ∧
    files w1 !! "model.pth" = Some (pickle_dumps (state_dict (net (model w)))) ∧
    load_state_dict (NeuralNetwork_init gen) (state_dict (net (model w)))
      = Ok (net (model w)) ∧
    ∀ v, files v = files w1 →
         ∃ w2, load_cell gen v = Ok (tt, w2) ∧
               net (model w2) = net (model w) ∧
               (∀ x, forward (net (model w2)) x = forward (net (model w)) x) ∧
               state_dict (net (model w2)) = state_dict (net (model w)) ∧
               files w2 = files v.
Proof using pickle_roundtrip.
  intros Hm.
  assert (Hload : load_state_dict (NeuralNetwork_init gen) (state_dict (net (model w)))
                  = Ok (net (model w))).
  { apply load_state_dict_roundtrip; [apply NeuralNetwork_init_topology|done]. }
  eexists. split; [apply save_cell_run|]. split_and!.
  - cbn [files add_stdout with_files]. apply lookup_insert_eq.
  - exact Hload.
  - intros v Hv. eexists. split.
    + eapply load_cell_run; [|apply pickle_roundtrip|exact Hload].
      rewrite Hv. cbn [files add_stdout with_files]. apply lookup_insert_eq.
    + done.
Qed.

(** C5.  Loading fails, with an exception and no model, when the file is
    missing, when it cannot be decoded, and when some parameter of the live
    model has no stored tensor of exactly its shape. *)
Theorem load_rejects_mismatch gen w :
  (files w !! "model.pth" = None →
   load_cell gen w = Raise (FileNotFoundError "model.pth")) ∧
  (∀ b, files w !! "model.pth" = Some b → pickle_loads b = None →
        load_cell gen w = Raise UnpicklingError) ∧
  (∀ b sd, files w !! "model.pth" = Some b → pickle_loads b = Some sd →
     (∃ k p, (k, p) ∈ named_parameters (NeuralNetwork_init gen) ∧
             ∀ t, sd !! k = Some t → shape t ≠ shape p) →
     load_cell gen w =
       Raise (RuntimeError "Error(s) in loading state_dict for NeuralNetwork")) ∧
  (∀ self sd,
     (∃ k p, (k, p) ∈ named_parameters self ∧ ∀ t, sd !! k = Some t → shape t ≠ shape p) →
     load_state_dict self sd =
       Raise (RuntimeError "Error(s) in loading state_dict for NeuralNetwork")).
Proof.
  split_and!.
  - intros Hf. unfold load_cell. erewrite bind_run by done.
    apply bind_fail. unfold torch_load. erewrite bind_run by done.
    cbn. by rewrite Hf.
  - intros b Hf Hb. unfold load_cell. erewrite bind_run by done.
    apply bind_fail. unfold torch_load. erewrite bind_run by done.
    cbn. by rewrite Hf, Hb.
  - intros b sd Hf Hb Hmis. eapply load_cell_Raise; [done..|].
    by apply load_state_dict_Raise.
  - intros self sd. apply load_state_dict_Raise.
Qed.

(** ** The progress lines of [train] *)

Lemma progress_lines_lookup size i p bs k Xy :
  bs !! k = Some Xy → (i + k) mod 100 = 0 →
  ∃ loss, LineProgress loss ((i + k + 1) * length Xy.2) size ∈ progress_lines size i p bs.
Proof.
  revert i k p. induction bs as [|Xy' bs IH]; intros i k p Hk Hmod; [done|].
  cbn [progress_lines]. destruct k as [|k].
  - injection Hk as ->. rewrite Nat.add_0_r in *.
    unfold progress_line. rewrite (proj2 (Nat.eqb_eq _ _) Hmod).
    eexists. apply elem_of_app. left. left.
  - cbn [lookup list_lookup] in Hk.
    destruct (IH (S i) k (sgd p (autograd p Xy'.1 Xy'.2)) Hk) as [loss Hloss].
    { by replace (S i + k) with (i + S k) by lia. }
    exists loss. apply elem_of_app. right.
    by replace (i + S k + 1) with (S i + k + 1) by lia.
Qed.

(** A progress line is printed for the batches whose number is a multiple of
    100, and for no other: it carries that batch's loss, [(i + 1) * len(X)]
    and the size of the dataset. *)
Lemma progress_lines_spec size i p bs l :
  l ∈ progress_lines size i p bs ↔
  ∃ k Xy, bs !! k = Some Xy ∧ (i + k) mod 100 = 0 ∧
          l = LineProgress (ce_value (spec_forward (sgd_pass p (take k bs)) Xy.1) Xy.2)
                           ((i + k + 1) * length Xy.2) size.
Proof.
  revert i p. induction bs as [|Xy' bs IH]; intros i p.
  - split; [by intros ?%elem_of_nil|]. by intros (k & Xy & ? & _).
  - cbn [progress_lines]. rewrite elem_of_app, IH. unfold progress_line. split.
    + intros [Hl|(k & Xy & Hk & Hmod & ->)].
      * destruct (i `mod` 100 =? 0) eqn:Hi; [|by apply elem_of_nil in Hl].
        apply list_elem_of_singleton in Hl as ->. apply Nat.eqb_eq in Hi.
        exists 0, Xy'. rewrite !Nat.add_0_r. by cbn.
      * exists (S k), Xy. cbn [lookup list_lookup take]. split; [done|].
        replace (i + S k) with (S i + k) by lia. split; [done|].
        by unfold sgd_pass; cbn [foldl].
    + intros ([|k] & Xy & Hk & Hmod & ->).
      * left. injection Hk as ->. rewrite !Nat.add_0_r in *.
        rewrite (proj2 (Nat.eqb_eq _ _) Hmod). cbn [take]. left.
      * right. exists k, Xy. cbn [lookup list_lookup] in Hk. split; [done|].
        replace (S i + k) with (i + S k) by lia. split; [done|].
        by unfold sgd_pass; cbn [foldl].
Qed.

Lemma concat_labels_collated (gs : list (list (tensor R * nat))) :
  concat (snd <$> (collated <$> gs)) = (concat gs).*2.
Proof.
  induction gs as [|g gs IH]; [done|].
  cbn [fmap list_fmap concat]. by rewrite IH, fmap_app.
Qed.

(** Every batch that has a successor is full. *)
Lemma batch_sampler_prefix {A} fuel bs (l : list A) k b :
  0 < bs → batch_sampler fuel bs l !! k = Some b →
  length (concat (take k (batch_sampler fuel bs l))) = k * bs.
Proof.
  intros Hbs. revert fuel l. induction k as [|k IH]; intros fuel l Hk.
  - by rewrite take_0.
  - destruct fuel as [|fuel]; [by destruct l|]. destruct l as [|a l]; [done|].
    cbn [batch_sampler lookup list_lookup take concat] in *.
    rewrite length_app, (IH _ _ Hk), length_take.
    assert (drop bs (a :: l) ≠ []) as Hne.
    { intros Hnil. rewrite Hnil in Hk. by destruct fuel. }
    assert (bs < length (a :: l)); [|lia].
    destruct (decide (bs < length (a :: l))) as [|Hge]; [done|].
    destruct Hne. apply drop_ge. lia.
Qed.

(** The number of samples in batches 0 to [k]: [k] full batches and batch [k]. *)
Lemma samples_processed dl k Xy :
  0 < batch_size dl → batches dl !! k = Some Xy →
  length (concat (snd <$> take (S k) (batches dl))) = k * batch_size dl + length Xy.2.
Proof.
  intros Hbs Hk. unfold batches in *. rewrite list_lookup_fmap in Hk.
  destruct (batch_sampler _ _ _ !! k) as [b|] eqn:Hb; [|done]. injection Hk as <-.
  rewrite <- fmap_take, concat_labels_collated, length_fmap.
  rewrite (take_S_r _ _ _ Hb), concat_app, length_app.
  rewrite (batch_sampler_prefix _ _ _ _ _ Hbs Hb).
  cbn [concat collated snd]. rewrite app_nil_r, length_fmap. done.
Qed.

(** What [train] prints. *)
Lemma train_progress dl w :
  0 < batch_size dl → dataset_ok (dataset dl) = true →
  has_topology (net (model w)) = true → grad_enabled w = true → grad (model w) = None →
  ∃ w', train dl w = Ok (tt, w') ∧
        stdout w' = stdout w ++ progress_lines (length (dataset dl)) 0 (net (model w)) (batches dl).
Proof using sgd_topology. intros. eexists. split; [by apply train_run|done]. Qed.

(** On a full batch (and on the first batch) the number printed is the
    number of samples processed so far. *)
Lemma progress_count_full_batch dl k Xy :
  0 < batch_size dl → batches dl !! k = Some Xy →
  k = 0 ∨ length Xy.2 = batch_size dl →
  (0 + k + 1) * length Xy.2 = length (concat (snd <$> take (S k) (batches dl))).
Proof.
  intros Hbs Hk Hfull. rewrite (samples_processed _ _ _ Hbs Hk).
  destruct Hfull as [->| ->]; lia.
Qed.

(** C8 (failing input).  With 100 * 64 + 1 samples in batches of 64, batch
    number 100 is the last one and holds a single sample: once it is done
    all 6401 samples have been processed, and the progress line printed for
    it says 101. *)
Theorem progress_count_partial_batch tr w :
  batch_size tr = 64 → length (dataset tr) = 100 * 64 + 1 →
  dataset_ok (dataset tr) = true →
  has_topology (net (model w)) = true → grad_enabled w = true → grad (model w) = None →
  ∃ w' loss,
    train tr w = Ok (tt, w') ∧
    length (batches tr) = 101 ∧
    length (concat (snd <$> take 101 (batches tr))) = 100 * 64 + 1 ∧
    LineProgress loss 101 (100 * 64 + 1) ∈ stdout w'.
Proof using sgd_topology.
  intros Hbs Hlen Hok Hm Hg Hgrad.
  assert (Hlens : length <$> batch_sampler (length (dataset tr)) (batch_size tr) (dataset tr)
                  = replicate 100 64 ++ [1]).
  { rewrite batch_sampler_lengths, Hbs, Hlen. by vm_compute. }
  assert (Hn : length (batches tr) = 101).
  { unfold batches. rewrite length_fmap, <- (length_fmap length), Hlens. done. }
  assert (∃ b, batch_sampler (length (dataset tr)) (batch_size tr) (dataset tr) !! 100
               = Some b ∧ length b = 1) as (b & Hb & Hb1).
  { assert (Hl : (length <$> batch_sampler (length (dataset tr)) (batch_size tr) (dataset tr))
                 !! 100 = Some 1) by (by rewrite Hlens).
    rewrite list_lookup_fmap in Hl.
    destruct (batch_sampler _ _ _ !! 100) as [b|]; [|done].
    injection Hl as Hl. by exists b. }
  assert (Hk : batches tr !! 100 = Some (collated b)).
  { unfold batches. by rewrite list_lookup_fmap, Hb. }
  destruct (progress_lines_lookup (length (dataset tr)) 0 (net (model w)) (batches tr)
              100 (collated b) Hk) as [loss Hloss]; [done|].
  destruct (train_progress tr w) as (w' & Hrun & Hout); [lia|done..|].
  exists w', loss. split_and!; [done..| |].
  - rewrite (samples_processed tr 100 _ ltac:(lia) Hk), Hbs.
    cbn [collated snd]. rewrite length_fmap, Hb1. done.
  - rewrite Hout. apply elem_of_app. right.
    cbn [collated snd] in Hloss. rewrite length_fmap, Hb1, Hlen in Hloss.
    by rewrite Hlen.
Qed.

(** ** Iterated epochs *)

Lemma epochs_topology p bs (ts : list nat) :
  has_topology p = true → has_topology (foldl (λ p _, sgd_pass p bs) p ts) = true.
Proof using sgd_topology.
  revert p. induction ts as [|t ts IH]; intros p Hp; [done|].
  cbn [foldl]. by apply IH, sgd_pass_topology.
Qed.

Lemma first_weight_init gen : first_weight (NeuralNetwork_init gen) = Some (gen 0).
Proof.
  unfold first_weight, NeuralNetwork_init, Linear_init. cbn [linear_relu_stack weight data].
  destruct (512 * (28 * 28)) eqn:E; [lia|]. done.
Qed.

(** * Further properties of the notebook's code *)

(** ** [NeuralNetwork.forward] on inputs of any shape *)

(** X1.  [forward] needs a batch dimension: on a tensor with fewer than two
    dimensions [nn.Flatten()] (which starts at dimension 1) raises
    [IndexError], whatever the layers are. *)
Theorem forward_rejects_low_rank self (x : tensor R) :
  flatten self = Flatten_init → length (shape x) ≤ 1 →
  forward self x = Raise (IndexError "Dimension out of range").
Proof.
  intros Hf Hx. unfold forward. rewrite Hf.
  unfold Flatten_forward, Flatten_init. cbn [start_dim end_dim].
  rewrite bool_decide_eq_false_2; [done|]. lia.
Qed.

(** X2.  On an input with a batch dimension, [forward] looks only at the
    number of values per sample: with 784 of them, in any layout, it returns
    one row of 10 scores per sample; with any other number the first linear
    layer raises [RuntimeError]. *)
Theorem forward_feature_count self n rest (x : tensor R) :
  has_topology self = true → shape x = n :: rest → rest ≠ [] →
  forward self x =
    if bool_decide (numel rest = 28 * 28)
    then Ok (Tensor [n; 10] (concat (spec_logits self <$> rows n (28 * 28) (data x))))
    else Raise (RuntimeError "mat1 and mat2 shapes cannot be multiplied").
Proof.
  intros Hm Hx Hrest. unfold forward.
  destruct (has_topology_inv _ Hm) as (-> & l0 & l2 & l4 & Hs & H0 & _).
  rewrite (Flatten_forward_default n rest) by done. rewrite bind_Ok.
  case_bool_decide as Hk.
  - rewrite Hk. by apply Sequential_forward_spec.
  - rewrite Hs. cbn [Sequential_forward Module_forward].
    apply Linear_ok_inv in H0 as (_ & _ & Hw & _).
    unfold Linear_forward. rewrite Hw. cbn [shape last].
    by rewrite bool_decide_eq_false_2.
Qed.

Lemma lookup_rows {A} n k (d : list A) i :
  i < n → rows n k d !! i = Some (take k (drop (i * k) d)).
Proof.
  intros Hi. unfold rows. rewrite list_lookup_fmap, lookup_seq_lt by done. done.
Qed.

Lemma select_concat_rows k (rs : list (list R)) i r :
  Forall (λ r, length r = k) rs → rs !! i = Some r →
  select (Tensor [length rs; k] (concat rs)) i = Ok (Tensor [k] r).
Proof.
  intros Hrs Hi. pose proof (lookup_lt_Some _ _ _ Hi) as Hlt.
  unfold select. cbn [shape data]. rewrite bool_decide_eq_true_2 by done.
  rewrite numel_cons, numel_nil, Nat.mul_1_r.
  pose proof (lookup_rows (length rs) k (concat rs) i Hlt) as Hrow.
  rewrite (rows_concat _ _ Hrs), Hi in Hrow. by injection Hrow as <-.
Qed.

(** X3.  Batching does not change a sample's scores: row [i] of the model's
    output on a collated batch is the row the model returns for sample [i]
    alone (every row being computed from its own 784 values by the same
    scalar operations). *)
Theorem forward_batch_independent p (b : list (tensor R * nat)) i s :
  has_topology p = true → Forall (λ s, sample_ok s = true) b → b !! i = Some s →
  ∃ Xy out row,
    default_collate b = Ok Xy ∧ forward p Xy.1 = Ok out ∧ select out i = Ok row ∧
    (o ← forward p s.1; select o 0) = Ok row.
Proof.
  intros Hm Hb Hi.
  assert (Hne : b ≠ []) by (intros ->; done).
  assert (Hs : sample_ok s = true).
  { rewrite Forall_lookup in Hb. by eapply Hb. }
  pose proof (sample_ok_inv _ Hs) as (Hx & Hlen & _).
  destruct (collated_inv (collated b)) as (HX & _ & _); [by exists b|].
  exists (collated b), (spec_forward p (collated b).1),
         (Tensor [10] (spec_logits p (data s.1))).
  split_and!.
  - by apply default_collate_ok.
  - by eapply forward_batch.
  - rewrite spec_forward_collated by done.
    rewrite <- (length_fmap (λ s, spec_logits p (data s.1)) b).
    apply select_concat_rows.
    + apply Forall_fmap, Forall_forall. intros u _. simpl. by apply length_spec_logits.
    + by rewrite list_lookup_fmap, Hi.
  - rewrite (forward_sample _ _ Hm Hx), bind_Ok.
    by apply select_argmax_sample.
Qed.

(** ** The batches a [DataLoader] yields *)

Lemma batch_sampler_le {A} fuel bs (l : list A) :
  Forall (λ b, length b ≤ bs) (batch_sampler fuel bs l).
Proof.
  revert l. induction fuel as [|fuel IH]; intros l; [by destruct l|].
  destruct l as [|a l]; [done|]. cbn [batch_sampler]. constructor; [|done].
  rewrite length_take. lia.
Qed.

Lemma batch_sampler_full {A} fuel bs (l : list A) k b :
  0 < bs → batch_sampler fuel bs l !! k = Some b →
  S k < length (batch_sampler fuel bs l) → length b = bs.
Proof.
  intros Hbs Hk Hlt.
  destruct (lookup_lt_is_Some_2 _ _ Hlt) as [b' Hk'].
  pose proof (batch_sampler_prefix _ _ _ _ _ Hbs Hk) as H1.
  pose proof (batch_sampler_prefix _ _ _ _ _ Hbs Hk') as H2.
  rewrite (take_S_r _ _ _ Hk), concat_app, length_app in H2.
  cbn [concat] in H2. rewrite app_nil_r in H2. lia.
Qed.

Lemma concat_data_collated (gs : list (list (tensor R * nat))) :
  concat ((λ Xy, data Xy.1) <$> (collated <$> gs)) = concat (data <$> (concat gs).*1).
Proof.
  induction gs as [|g gs IH]; [done|].
  cbn [fmap list_fmap concat collated fst data].
  by rewrite IH, !fmap_app, concat_app.
Qed.

(** X4.  The loader built with only a batch size (no shuffling, no dropped
    remainder) cuts the dataset into consecutive batches: the labels and the
    pixels of the batches, put end to end, are those of the dataset in its
    own order; no batch is empty or larger than the batch size, and every
    batch but the last is full. *)
Theorem dataloader_partitions_dataset dl :
  0 < batch_size dl → dataset_ok (dataset dl) = true →
  ∃ bs, DataLoader_iter dl = Ok <$> bs ∧
        concat (snd <$> bs) = (dataset dl).*2 ∧
        concat ((λ Xy, data Xy.1) <$> bs) = concat (data <$> (dataset dl).*1) ∧
        Forall (λ Xy, shape Xy.1 = [length Xy.2; 1; 28; 28] ∧
                      0 < length Xy.2 ≤ batch_size dl) bs ∧
        ∀ k Xy, bs !! k = Some Xy → S k < length bs → length Xy.2 = batch_size dl.
Proof.
  intros Hbs Hok. exists (batches dl). split_and!.
  - by apply DataLoader_iter_ok.
  - unfold batches. by rewrite concat_labels_collated, batch_sampler_concat.
  - unfold batches. by rewrite concat_data_collated, batch_sampler_concat.
  - pose proof (batches_wf dl Hbs Hok) as Hwf. unfold batches in *.
    rewrite Forall_fmap in Hwf. apply Forall_fmap.
    pose proof (batch_sampler_le (length (dataset dl)) (batch_size dl) (dataset dl)) as Hle.
    rewrite Forall_forall in Hwf, Hle. apply Forall_forall. intros b Hb.
    destruct (collated_inv (collated b)) as (HX & Hpos & _).
    { destruct (Hwf b Hb) as (b' & ? & ? & ?). by exists b'. }
    split; [done|]. split; [done|].
    cbn [collated snd]. rewrite length_fmap. by apply Hle.
  - intros k Xy Hk Hlt. unfold batches in *.
    rewrite list_lookup_fmap in Hk. rewrite length_fmap in Hlt.
    destruct (batch_sampler _ _ _ !! k) as [b|] eqn:Hb; [|done]. injection Hk as <-.
    cbn [collated snd]. rewrite length_fmap. by eapply batch_sampler_full.
Qed.

(** X5.  The data-shape cell draws only the first batch: it prints the shape
    of [min batch_size n] stacked images and of as many labels, and never
    looks at the samples behind them; on an empty dataset it prints
    nothing. *)
Theorem data_shape_first_batch dl :
  0 < batch_size dl →
  Forall (λ s, sample_ok s = true) (take (batch_size dl) (dataset dl)) →
  data_shape_cell dl =
    Ok (match dataset dl with
        | [] => []
        | _ :: _ =>
            let n := batch_size dl `min` length (dataset dl) in
            [[n; 1; 28; 28]; [n]]
        end).
Proof.
  intros Hbs Hok. unfold data_shape_cell, DataLoader_iter.
  destruct (dataset dl) as [|s ds] eqn:Hds; [done|].
  cbn [length batch_sampler fmap list_fmap].
  rewrite default_collate_ok; [|by destruct (batch_size dl); [lia|]|done].
  rewrite bind_Ok.
  destruct (collated_inv (collated (take (batch_size dl) (s :: ds)))) as (HX & _ & _).
  { eexists. split; [done|]. split; [by destruct (batch_size dl); [lia|]|done]. }
  rewrite HX. cbn [collated snd]. by rewrite length_fmap, length_take.
Qed.

(** ** [train] at its edges *)

(** X6.  On an empty dataset [train] makes no library call and prints
    nothing: it only switches the module to training mode. *)
Theorem train_empty_dataset dl w :
  dataset dl = [] →
  train dl w =
    Ok (tt, with_model {| net := net (model w); grad := grad (model w); training := true |} w).
Proof.
  intros Hds. unfold train, DataLoader_iter. rewrite Hds. done.
Qed.

Lemma batches_cons dl :
  dataset dl ≠ [] →
  ∃ Xy rest, batches dl = Xy :: rest.
Proof.
  intros Hne. pose proof (batches_nonempty dl Hne) as Hb.
  destruct (batches dl) as [|Xy rest]; [done|]. by exists Xy, rest.
Qed.

(** X7.  With gradient tracking switched off, [train] cannot run: on the
    first batch the loss has no graph and [loss.backward()] raises
    [RuntimeError]. *)
Theorem train_without_grad_raises dl w :
  0 < batch_size dl → dataset_ok (dataset dl) = true → dataset dl ≠ [] →
  has_topology (net (model w)) = true → grad_enabled w = false →
  train dl w = Raise (RuntimeError "element 0 of tensors does not require grad").
Proof.
  intros Hbs Hok Hne Hm Hg. unfold train, enumerate.
  erewrite bind_run by done.
  rewrite DataLoader_iter_ok, length_fmap by done.
  pose proof (batches_wf dl Hbs Hok) as Hwf.
  destruct (batches_cons dl Hne) as (Xy & rest & Hb). rewrite Hb in *.
  apply Forall_inv, collated_inv in Hwf as (HX & _ & Hy).
  cbn [fmap list_fmap length seq zip zip_with for_each].
  apply bind_fail. unfold train_batch. cbn [fst snd].
  erewrite bind_run by done.
  erewrite bind_run by (by eapply call_model_run).
  erewrite bind_run by
    (eapply loss_fn_run; [by eapply spec_forward_shape|done..]).
  apply bind_fail.
  cbn [grad_enabled with_model add_log]. rewrite Hg. done.
Qed.

Lemma train_batch_run_pending size i Xy g0 w :
  has_topology (net (model w)) = true → grad_enabled w = true → grad (model w) = Some g0 →
  shape Xy.1 = [length Xy.2; 1; 28; 28] →
  forallb (λ t, bool_decide (t < 10)) Xy.2 = true →
  train_batch size (i, Ok Xy) w =
    Ok (tt, add_stdout (progress_line size i (net (model w)) Xy)
              (add_log [EvForward Xy.1 true; EvLoss Xy.2;
                        EvBackward (net (model w)) Xy.1 Xy.2 (Some g0);
                        EvStep (Some (G_add g0 (autograd (net (model w)) Xy.1 Xy.2)));
                        EvZeroGrad]
                 (with_model {| net := sgd (net (model w))
                                         (G_add g0 (autograd (net (model w)) Xy.1 Xy.2));
                                grad := None; training := training (model w) |} w))).
Proof.
  intros Hm Hg Hgrad HX Hy. destruct Xy as [X y]. cbn [fst snd] in *.
  unfold train_batch. cbn [fst snd].
  erewrite bind_run by done.
  erewrite bind_run by (by eapply call_model_run).
  erewrite bind_run by
    (eapply loss_fn_run; [by eapply spec_forward_shape|done..]).
  rewrite Hg. unfold backward, optimizer_step, optimizer_zero_grad, progress_line.
  unfold get_model, put_model, emit, print, lift, ret, tensor_len, bind, prog_bind.
  cbn [value pred_graph item loss_graph fmap option_fmap option_map fst snd
       model grad net training with_model add_log add_stdout
       grad_enabled files stdout log].
  rewrite HX, Hgrad. cbn [accumulate].
  destruct (i `mod` 100 =? 0); do 2 f_equal; apply world_eq;
    cbn [model grad_enabled files stdout log add_stdout add_log with_model];
    by rewrite <- ?app_assoc, ?app_nil_r.
Qed.

(** X8.  [train] clears the gradients after the update, not before the
    backward pass: a gradient pending when [train] is called is added to the
    first batch's gradient and goes into the first update; every later
    update uses its own batch's gradient only, and none is pending at the
    end. *)
Theorem train_pending_gradient dl g0 w :
  0 < batch_size dl → dataset_ok (dataset dl) = true → dataset dl ≠ [] →
  has_topology (net (model w)) = true → grad_enabled w = true →
  grad (model w) = Some g0 →
  ∃ Xy rest w',
    DataLoader_iter dl = Ok <$> Xy :: rest ∧
    train dl w = Ok (tt, w') ∧
    let p := net (model w) in
    let p1 := sgd p (G_add g0 (autograd p Xy.1 Xy.2)) in
    net (model w') = sgd_pass p1 rest ∧
    grad (model w') = None ∧
    log w' = log w ++ [EvForward Xy.1 true; EvLoss Xy.2; EvBackward p Xy.1 Xy.2 (Some g0);
                       EvStep (Some (G_add g0 (autograd p Xy.1 Xy.2))); EvZeroGrad]
                   ++ train_events p1 rest.
Proof using sgd_topology.
  intros Hbs Hok Hne Hm Hg Hgrad.
  pose proof (batches_wf dl Hbs Hok) as Hwf.
  destruct (batches_cons dl Hne) as (Xy & rest & Hb). rewrite Hb in Hwf.
  apply Forall_cons in Hwf as [HXy Hrest].
  apply collated_inv in HXy as (HX & _ & Hy).
  exists Xy, rest. eexists. split; [by rewrite DataLoader_iter_ok, Hb|].
  split.
  - unfold train, enumerate. erewrite bind_run by done.
    rewrite DataLoader_iter_ok, length_fmap, Hb by done.
    cbn [fmap list_fmap length seq zip zip_with for_each].
    erewrite bind_run by (by apply train_batch_run_pending).
    apply train_batches_run; [by apply sgd_topology|done..].
  - cbn [model net grad log add_stdout add_log with_model].
    by rewrite <- app_assoc.
Qed.

Lemma div100_step i : (S i + 99) / 100 = (i + 99) / 100 + (if i mod 100 =? 0 then 1 else 0).
Proof.
  pose proof (Nat.div_mod_eq (S i + 99) 100) as H1.
  pose proof (Nat.div_mod_eq (i + 99) 100) as H2.
  pose proof (Nat.div_mod_eq i 100) as H3.
  pose proof (Nat.mod_upper_bound (S i + 99) 100) as U1.
  pose proof (Nat.mod_upper_bound (i + 99) 100) as U2.
  pose proof (Nat.mod_upper_bound i 100) as U3.
  destruct (Nat.eqb_spec (i mod 100) 0); lia.
Qed.

Lemma length_progress_lines size i p bs :
  length (progress_lines size i p bs) = (i + length bs + 99) / 100 - (i + 99) / 100.
Proof.
  revert i p. induction bs as [|Xy bs IH]; intros i p.
  - cbn [progress_lines length]. rewrite Nat.add_0_r. lia.
  - cbn [progress_lines]. rewrite length_app, IH. cbn [length].
    replace (i + S (length bs) + 99) with (S i + length bs + 99) by lia.
    pose proof (Nat.Div0.div_le_mono (S i + 99) (S i + length bs + 99) 100) as Hle.
    rewrite div100_step in *. unfold progress_line.
    destruct (i `mod` 100 =? 0); cbn [length]; lia.
Qed.

(** X9.  What [train] prints: one line per batch whose index is a multiple of
    100, so [ceil(batches / 100)] lines.  The line of batch [k] carries the
    loss of that batch under the parameters reached after the [k] updates
    before it, the number [(k + 1) * len(X)], and the size of the dataset. *)
Theorem train_progress_report dl w :
  0 < batch_size dl → dataset_ok (dataset dl) = true →
  has_topology (net (model w)) = true → grad_enabled w = true → grad (model w) = None →
  ∃ w' bs ls,
    DataLoader_iter dl = Ok <$> bs ∧
    train dl w = Ok (tt, w') ∧ stdout w' = stdout w ++ ls ∧
    length ls = (length bs + 99) / 100 ∧
    ∀ l, l ∈ ls ↔
         ∃ k Xy, bs !! k = Some Xy ∧ k mod 100 = 0 ∧
                 l = LineProgress
                       (ce_value (spec_forward (sgd_pass (net (model w)) (take k bs)) Xy.1) Xy.2)
                       ((k + 1) * length Xy.2) (length (dataset dl)).
Proof using sgd_topology.
  intros Hbs Hok Hm Hg Hgrad.
  exists (after_train dl w), (batches dl),
         (progress_lines (length (dataset dl)) 0 (net (model w)) (batches dl)).
  split_and!.
  - by apply DataLoader_iter_ok.
  - by apply train_run.
  - done.
  - rewrite length_progress_lines. cbn [Nat.add].
    rewrite (Nat.div_small 99 100) by lia. lia.
  - intros l. by rewrite progress_lines_spec.
Qed.

(** ** [test] and the prediction cell *)

(** X10.  An evaluation pass leaves the interpreter as it found it, the
    module's mode apart: the [no_grad] block restores the gradient mode in
    force before the call (on or off), no file is touched, the parameters and
    any pending gradient are kept, and the module ends in evaluation mode. *)
Theorem test_restores_state dl w :
  0 < batch_size dl → dataset_ok (dataset dl) = true → dataset dl ≠ [] →
  has_topology (net (model w)) = true →
  ∃ w', test dl w = Ok (tt, w') ∧
        grad_enabled w' = grad_enabled w ∧ files w' = files w ∧
        net (model w') = net (model w) ∧ grad (model w') = grad (model w) ∧
        training (model w') = false.
Proof.
  intros Hbs Hok Hne Hm. exists (after_test dl w).
  split; [by apply test_run|]. done.
Qed.

(** X11.  The accuracy [test] reports does not depend on the batch size: two
    loaders over the same dataset report the same accuracy (the average
    loss, a mean of per-batch values, may differ). *)
Theorem accuracy_independent_of_batch_size (ds : Dataset) bs1 bs2 w :
  0 < bs1 → 0 < bs2 → dataset_ok ds = true → ds ≠ [] →
  has_topology (net (model w)) = true →
  ∃ w1 w2 acc loss1 loss2,
    test (DataLoader_init ds bs1) w = Ok (tt, w1) ∧
    stdout w1 = stdout w ++ [LineTestError acc loss1] ∧
    test (DataLoader_init ds bs2) w = Ok (tt, w2) ∧
    stdout w2 = stdout w ++ [LineTestError acc loss2].
Proof.
  intros H1 H2 Hok Hne Hm.
  exists (after_test (DataLoader_init ds bs1) w), (after_test (DataLoader_init ds bs2) w).
  do 3 eexists. split_and!.
  - by apply test_run.
  - done.
  - by apply test_run.
  - done.
Qed.

(** X12.  The prediction cell reads the second sample of the test data: with
    fewer than two samples it raises [IndexError] before the model is
    called. *)
Theorem predict_cell_needs_two_samples (test_data : Dataset) w :
  length test_data ≤ 1 →
  predict_cell test_data w = Raise (IndexError "list index out of range").
Proof.
  intros Hlen. unfold predict_cell. erewrite bind_run by done.
  apply bind_fail. unfold list_index.
  rewrite lookup_ge_None_2 by lia. done.
Qed.

Lemma NoDup_classes : NoDup classes.
Proof. apply (bool_decide_unpack _). by vm_compute. Qed.

(** X13.  The prediction cell and the evaluation loop agree: the two class
    names printed for the sample are equal exactly when [test] counts that
    sample as correct. *)
Theorem predict_cell_agrees_with_test (test_data : Dataset) x y w :
  has_topology (net (model w)) = true →
  test_data !! 1 = Some (x, y) → sample_ok (x, y) = true →
  ∃ predicted actual w',
    predict_cell test_data w = Ok (tt, w') ∧
    stdout w' = stdout w ++ [LinePredicted predicted actual] ∧
    (predicted = actual ↔ (x, y) ∈ correct_samples (net (model w)) test_data).
Proof.
  intros Hm Hs Hok.
  pose proof (sample_ok_inv _ Hok) as (_ & _ & Hy). cbn [fst snd] in Hy.
  pose proof (predict_lt _ x Hm) as Hlt.
  destruct (lookup_lt_is_Some_2 classes (predict (net (model w)) x)) as [predicted Hp];
    [done|].
  destruct (lookup_lt_is_Some_2 classes y) as [actual Ha]; [done|].
  exists predicted, actual. eexists. split; [by eapply predict_cell_run|].
  split; [done|].
  unfold correct_samples. rewrite list_elem_of_filter. cbn [fst snd]. split.
  - intros <-. split; [|by eapply list_elem_of_lookup_2].
    by eapply NoDup_lookup; [apply NoDup_classes|..].
  - intros [Heq _]. rewrite Heq in Hp. congruence.
Qed.

(** ** Saving and loading, beyond the round trip *)


Local Ltac in_list :=
  solve [repeat first [apply list_elem_of_here | apply list_elem_of_further]].

Lemma state_dict_topology self l0 l2 l4 :
  linear_relu_stack self = [ModLinear l0; ModReLU; ModLinear l2; ModReLU; ModLinear l4] →
  state_dict self =
    <["linear_relu_stack.0.weight" := weight l0]>
      (<["linear_relu_stack.0.bias" := bias l0]>
         (<["linear_relu_stack.2.weight" := weight l2]>
            (<["linear_relu_stack.2.bias" := bias l2]>
               (<["linear_relu_stack.4.weight" := weight l4]>
                  (<["linear_relu_stack.4.bias" := bias l4]> ∅))))).
Proof.
  intros Hs. unfold state_dict. by rewrite (named_parameters_topology _ _ _ _ Hs).
Qed.

(** X15.  The state dictionary of a model holds exactly six tensors, the
    weight and the bias of the layers at positions 0, 2 and 4 of the stack
    (the activations and the flattening have no parameters), with the shapes
    the constructor gave them. *)
Theorem state_dict_entries self :
  has_topology self = true →
  shape <$> state_dict self =
    list_to_map
      [ ("linear_relu_stack.0.weight", [512; 28 * 28]); ("linear_relu_stack.0.bias", [512]);
        ("linear_relu_stack.2.weight", [512; 512]); ("linear_relu_stack.2.bias", [512]);
        ("linear_relu_stack.4.weight", [10; 512]); ("linear_relu_stack.4.bias", [10]) ].
Proof.
  clear sgd_topology ce_nonneg pickle_roundtrip.
  intros (_ & l0 & l2 & l4 & Hs & L0 & L2 & L4)%has_topology_inv.
  rewrite (state_dict_topology _ _ _ _ Hs). rewrite !fmap_insert, fmap_empty.
  apply Linear_ok_inv in L0 as (_ & _ & -> & _ & -> & _).
  apply Linear_ok_inv in L2 as (_ & _ & -> & _ & -> & _).
  apply Linear_ok_inv in L4 as (_ & _ & -> & _ & -> & _).
  done.
Qed.

(** X16.  What was loaded is what the model then holds: after a successful
    [load_state_dict], the model's state dictionary is the dictionary that
    was loaded. *)
Theorem load_then_state_dict self sd net' :
  has_topology self = true → load_state_dict self sd = Ok net' →
  state_dict net' = sd.
Proof.
  clear sgd_topology ce_nonneg pickle_roundtrip.
  intros (_ & l0 & l2 & l4 & Hs & _)%has_topology_inv.
  intros (Hshape & Hdom & ->)%load_state_dict_Ok.
  rewrite (named_parameters_topology _ _ _ _ Hs) in Hshape, Hdom.
  rewrite Hs, load_stack.
  erewrite state_dict_topology by done. cbn [weight bias].
  destruct (Hshape "linear_relu_stack.0.weight" (weight l0)) as (t0 & H0 & _); [in_list|].
  destruct (Hshape "linear_relu_stack.0.bias" (bias l0)) as (t1 & H1 & _); [in_list|].
  destruct (Hshape "linear_relu_stack.2.weight" (weight l2)) as (t2 & H2 & _); [in_list|].
  destruct (Hshape "linear_relu_stack.2.bias" (bias l2)) as (t3 & H3 & _); [in_list|].
  destruct (Hshape "linear_relu_stack.4.weight" (weight l4)) as (t4 & H4 & _); [in_list|].
  destruct (Hshape "linear_relu_stack.4.bias" (bias l4)) as (t5 & H5 & _); [in_list|].
  rewrite H0, H1, H2, H3, H4, H5. cbn [default].
  apply map_eq. intros k.
  destruct (decide (k = "linear_relu_stack.0.weight")) as [->|]; [by simplify_map_eq|].
  destruct (decide (k = "linear_relu_stack.0.bias")) as [->|]; [by simplify_map_eq|].
  destruct (decide (k = "linear_relu_stack.2.weight")) as [->|]; [by simplify_map_eq|].
  destruct (decide (k = "linear_relu_stack.2.bias")) as [->|]; [by simplify_map_eq|].
  destruct (decide (k = "linear_relu_stack.4.weight")) as [->|]; [by simplify_map_eq|].
  destruct (decide (k = "linear_relu_stack.4.bias")) as [->|]; [by simplify_map_eq|].
  rewrite !lookup_insert_ne, lookup_empty by done.
  symmetry. apply not_elem_of_dom. intros Hk. apply Hdom in Hk.
  cbn [fmap list_fmap fst] in Hk.
  repeat (apply elem_of_cons in Hk as [->|Hk]; [done|]). by apply elem_of_nil in Hk.
Qed.




(** X18.  The saved file is a checkpoint: training on after the save changes
    the model but not the file, and the load cell then brings back the
    parameters the model had when it was saved, in a module with no pending
    gradient. *)
Theorem checkpoint_restore gen dl w :
  0 < batch_size dl → dataset_ok (dataset dl) = true →
  has_topology (net (model w)) = true → grad_enabled w = true → grad (model w) = None →
  ∃ w1 w2 w3,
    save_cell w = Ok (tt, w1) ∧ train dl w1 = Ok (tt, w2) ∧ load_cell gen w2 = Ok (tt, w3) ∧
    net (model w2) = sgd_pass (net (model w)) (batches dl) ∧
    files w2 = files w1 ∧
    net (model w3) = net (model w) ∧ grad (model w3) = None.
Proof using sgd_topology pickle_roundtrip.
  intros Hbs Hok Hm Hg Hgrad.
  set (w1 := add_stdout [LineSaved]
               (with_files (<["model.pth" := pickle_dumps (state_dict (net (model w)))]>
                              (files w)) w)).
  exists w1, (after_train dl w1). eexists. split_and!.
  - apply save_cell_run.
  - by apply train_run.
  - apply (load_cell_run gen (after_train dl w1)
             (pickle_dumps (state_dict (net (model w)))) (state_dict (net (model w)))
             (net (model w))).
    + cbn [files after_train add_stdout add_log with_model with_files w1].
      apply lookup_insert_eq.
    + apply pickle_roundtrip.
    + apply load_state_dict_roundtrip; [apply NeuralNetwork_init_topology|done].
  - done.
  - done.
  - done.
  - done.
Qed.

(** ** The output of the epoch loop *)

Lemma progress_lines_kinds size i p bs :
  kind_of <$> progress_lines size i p bs =
    replicate (length (progress_lines size i p bs)) KProgress.
Proof.
  revert i p. induction bs as [|Xy bs IH]; intros i p; [done|].
  cbn [progress_lines]. rewrite fmap_app, length_app, replicate_add, IH.
  f_equal. unfold progress_line. by destruct (i `mod` 100 =? 0).
Qed.

Lemma after_epoch_kinds tr te t w :
  kind_of <$> stdout (after_epoch tr te t w) =
    (kind_of <$> stdout w) ++ epoch_kinds (length (batches tr)) t.
Proof.
  unfold after_epoch, after_test, after_train, epoch_kinds.
  cbn [stdout add_stdout add_log with_model model net].
  rewrite !fmap_app, progress_lines_kinds, length_progress_lines.
  cbn [Nat.add fmap list_fmap kind_of]. rewrite (Nat.div_small 99 100) by lia.
  rewrite Nat.sub_0_r, <- !app_assoc. done.
Qed.

Lemma after_epochs_kinds tr te ts w :
  kind_of <$> stdout (after_epochs tr te ts w) =
    (kind_of <$> stdout w) ++ (ts ≫= epoch_kinds (length (batches tr))).
Proof.
  revert w. induction ts as [|t ts IH]; intros w.
  - cbn [after_epochs]. by rewrite app_nil_r.
  - cbn [after_epochs]. rewrite IH, after_epoch_kinds, <- app_assoc. done.
Qed.

(** X19.  The output of the epoch loop: for each of the epochs 1 to 5 in
    turn, the header with the epoch's number, [ceil(len(train_dataloader) /
    100)] progress lines and one evaluation report; then the closing line.
    With the notebook's 938 training batches that is 10 progress lines per
    epoch. *)
Theorem epoch_loop_output tr te w :
  0 < batch_size tr → dataset_ok (dataset tr) = true →
  0 < batch_size te → dataset_ok (dataset te) = true → dataset te ≠ [] →
  has_topology (net (model w)) = true → grad_enabled w = true → grad (model w) = None →
  ∃ w', run_epochs tr te w = Ok (tt, w') ∧
        kind_of <$> stdout w' =
          (kind_of <$> stdout w)
          ++ ([0; 1; 2; 3; 4] ≫= epoch_kinds (DataLoader_len tr))
          ++ [KDone].
Proof using sgd_topology.
  intros Hbs Hok Hbs' Hok' Hne Hm Hg Hgrad.
  eexists. split; [by apply run_epochs_run|].
  cbn [stdout add_stdout]. rewrite fmap_app, after_epochs_kinds, length_batches by done.
  rewrite <- app_assoc. done.
Qed.

(** ** The cells from the epoch loop on *)

Lemma files_add_stdout ls w : files (add_stdout ls w) = files w.
Proof. done. Qed.

Lemma files_add_log es w : files (add_log es w) = files w.
Proof. done. Qed.

Lemma files_with_model m w : files (with_model m w) = files w.
Proof. done. Qed.

Lemma files_with_files fs w : files (with_files fs w) = fs.
Proof. done. Qed.

Lemma stdout_add_stdout ls w : stdout (add_stdout ls w) = stdout w ++ ls.
Proof. done. Qed.

Lemma stdout_add_log es w : stdout (add_log es w) = stdout w.
Proof. done. Qed.

Lemma stdout_with_model m w : stdout (with_model m w) = stdout w.
Proof. done. Qed.

Lemma stdout_with_files fs w : stdout (with_files fs w) = stdout w.
Proof. done. Qed.

Lemma seq_epochs : seq 0 epochs = [0; 1; 2; 3; 4].
Proof. done. Qed.

Lemma after_epochs_files tr te ts w : files (after_epochs tr te ts w) = files w.
Proof. revert w. induction ts as [|t ts IH]; intros w; [done|]. cbn [after_epochs]. by rewrite IH. Qed.

(** X20.  The last four cells compose: started in a state with a model of
    the notebook's topology, gradient tracking on and no gradient pending
    (what the cells before them leave), on well-formed data with at least
    two test samples, the epoch loop, the save cell, the load cell and the
    prediction cell run in order without raising.  The parameters saved,
    loaded into the new model and used for the prediction are those of five
    epochs of minibatch SGD from the ones the loop started with; these cells
    write the model file and no other; to the output already there they add
    the lines of the epoch loop, the save line and the prediction line. *)
Theorem closing_cells_run gen' (training_data test_data : Dataset) x y w :
  dataset_ok training_data = true → dataset_ok test_data = true →
  test_data !! 1 = Some (x, y) →
  has_topology (net (model w)) = true → grad_enabled w = true → grad (model w) = None →
  let trained :=
    foldl (λ p _, sgd_pass p (batches (DataLoader_init training_data notebook_batch_size)))
          (net (model w)) (seq 0 epochs) in
  ∃ w' predicted actual,
    closing_cells gen' training_data test_data w = Ok (tt, w') ∧
    net (model w') = trained ∧
    files w' = <["model.pth" := pickle_dumps (state_dict trained)]> (files w) ∧
    classes !! predict trained x = Some predicted ∧ classes !! y = Some actual ∧
    last (stdout w') = Some (LinePredicted predicted actual) ∧
    kind_of <$> stdout w' =
      (kind_of <$> stdout w)
      ++ ([0; 1; 2; 3; 4]
            ≫= epoch_kinds (DataLoader_len (DataLoader_init training_data notebook_batch_size)))
      ++ [KDone; KSaved; KPredicted].
Proof using sgd_topology pickle_roundtrip.
  intros Htr Hte Hs Hm Hg Hgrad trained.
  set (tr := DataLoader_init training_data notebook_batch_size).
  set (te := DataLoader_init test_data notebook_batch_size).
  assert (Hsok : sample_ok (x, y) = true).
  { unfold dataset_ok in Hte. rewrite forallb_Forall, Forall_lookup in Hte.
    by apply (Hte 1). }
  pose proof (sample_ok_inv _ Hsok) as (_ & _ & Hy). cbn [fst snd] in Hy.
  assert (Htop : has_topology trained = true).
  { by apply epochs_topology. }
  destruct (lookup_lt_is_Some_2 classes (predict trained x)) as [predicted Hp];
    [by apply predict_lt|].
  destruct (lookup_lt_is_Some_2 classes y) as [actual Ha]; [done|].
  set (w1 := add_stdout [LineDone] (after_epochs tr te (seq 0 epochs) w)).
  assert (H1 : run_epochs tr te w = Ok (tt, w1)).
  { apply run_epochs_run.
    - unfold tr, DataLoader_init, notebook_batch_size. cbn [batch_size]. lia.
    - exact Htr.
    - unfold te, DataLoader_init, notebook_batch_size. cbn [batch_size]. lia.
    - exact Hte.
    - unfold te, DataLoader_init. cbn [dataset]. intros Hnil. by rewrite Hnil in Hs.
    - exact Hm.
    - exact Hg.
    - exact Hgrad. }
  assert (Hn1 : net (model w1) = trained).
  { unfold w1. by rewrite model_add_stdout, after_epochs_net. }
  set (w2 := add_stdout [LineSaved]
               (with_files (<["model.pth" := pickle_dumps (state_dict (net (model w1)))]>
                              (files w1)) w1)).
  set (w3 := with_model {| net := trained; grad := None; training := true |} w2).
  assert (H3 : load_cell gen' w2 = Ok (tt, w3)).
  { apply (load_cell_run gen' w2 (pickle_dumps (state_dict (net (model w1))))
             (state_dict (net (model w1))) trained).
    - unfold w2. cbn [files add_stdout with_files]. apply lookup_insert_eq.
    - apply pickle_roundtrip.
    - rewrite Hn1. apply load_state_dict_roundtrip; [apply NeuralNetwork_init_topology|done]. }
  pose proof (predict_cell_run test_data x y predicted actual w3 Htop Hs Hsok Hp Ha) as H4.
  exists (add_stdout [LinePredicted predicted actual]
            (add_log [EvForward x false]
               (with_model {| net := net (model w3); grad := grad (model w3);
                              training := false |} w3))), predicted, actual.
  split_and!.
  - unfold closing_cells. fold tr te.
    rewrite (bind_run _ _ _ _ _ H1). rewrite (bind_run _ _ _ _ _ (save_cell_run w1)).
    fold w2. rewrite (bind_run _ _ _ _ _ H3). exact H4.
  - reflexivity.
  - rewrite files_add_stdout, files_add_log, files_with_model.
    unfold w3. rewrite files_with_model.
    unfold w2. rewrite files_add_stdout, files_with_files, Hn1.
    unfold w1. rewrite files_add_stdout, after_epochs_files. reflexivity.
  - exact Hp.
  - exact Ha.
  - rewrite stdout_add_stdout. apply last_snoc.
  - rewrite stdout_add_stdout, stdout_add_log, stdout_with_model.
    unfold w3. rewrite stdout_with_model.
    unfold w2. rewrite stdout_add_stdout, stdout_with_files.
    unfold w1. rewrite stdout_add_stdout.
    rewrite !fmap_app, after_epochs_kinds, seq_epochs, length_batches.
    + rewrite <- !app_assoc. reflexivity.
    + unfold tr, DataLoader_init, notebook_batch_size. cbn [batch_size]. lia.
Qed.

(** ** The epoch loop on an empty test split *)

(** X21.  With no test sample the notebook stops in its first epoch: the
    training pass runs, then [test] divides by the number of batches, which
    is zero, and the loop raises [ZeroDivisionError]. *)
Theorem epoch_loop_empty_test_split tr te w :
  0 < batch_size tr → dataset_ok (dataset tr) = true → dataset te = [] →
  has_topology (net (model w)) = true → grad_enabled w = true → grad (model w) = None →
  ∃ w1, train tr (add_stdout [LineEpoch 1] w) = Ok (tt, w1) ∧
        test te w1 = Raise ZeroDivisionError ∧
        run_epochs tr te w = Raise ZeroDivisionError.
Proof using sgd_topology.
  intros Hbs Hok Hte Hm Hg Hgrad.
  exists (after_train tr (add_stdout [LineEpoch 1] w)).
  assert (Htrain : train tr (add_stdout [LineEpoch 1] w)
                   = Ok (tt, after_train tr (add_stdout [LineEpoch 1] w)))
    by (by apply train_run).
  split; [done|]. split; [by apply test_empty|].
  unfold run_epochs. apply bind_fail. rewrite seq_epochs. cbn [for_each].
  apply bind_fail. unfold epoch.
  erewrite bind_run by done.
  erewrite bind_run by exact Htrain.
  by apply test_empty.
Qed.

(** ** The class [argmax] picks *)

Section argmax_order.

(** The comparison of scores is a strict weak order, as it is on the
    floating-point numbers other than NaN. *)
Hypothesis s_gt_asym : ∀ a b : R, s_gt a b = true → s_gt b a = false.
Hypothesis s_le_trans : ∀ a b c : R, s_gt a b = false → s_gt b c = false → s_gt a c = false.

Lemma s_gt_irrefl (a : R) : s_gt a a = false.
Proof using s_gt_asym.
  destruct (s_gt a a) eqn:Ha; [|done]. by rewrite (s_gt_asym _ _ Ha) in Ha.
Qed.

(** The scan keeps the first maximal element of what it has seen. *)
Lemma argmax_from_spec (pre l : list R) best_i best :
  pre !! best_i = Some best →
  (∀ j v, pre !! j = Some v → s_gt v best = false) →
  (∀ j v, j < best_i → pre !! j = Some v → s_gt best v = true) →
  ∃ b, (pre ++ l) !! argmax_from best_i best (length pre) l = Some b ∧
       (∀ j v, (pre ++ l) !! j = Some v → s_gt v b = false) ∧
       (∀ j v, j < argmax_from best_i best (length pre) l →
               (pre ++ l) !! j = Some v → s_gt b v = true).
Proof using s_gt_asym s_le_trans.
  revert pre best_i best. induction l as [|x l IH]; intros pre best_i best Hbest Hmax Hfirst.
  - cbn [argmax_from]. rewrite app_nil_r. by exists best.
  - cbn [argmax_from]. rewrite cons_middle, app_assoc.
    replace (S (length pre)) with (length (pre ++ [x])) by (rewrite length_app; simpl; lia).
    destruct (s_gt x best) eqn:Hx.
    + apply IH.
      * by rewrite lookup_app_r, Nat.sub_diag.
      * intros j v Hj. apply lookup_app_Some in Hj as [Hj|[_ Hj]].
        -- eapply s_le_trans; [by eapply Hmax|by apply s_gt_asym].
        -- apply list_lookup_singleton_Some in Hj as [_ <-]. apply s_gt_irrefl.
      * intros j v Hlt Hj. rewrite lookup_app_l in Hj by done.
        destruct (s_gt x v) eqn:Hv; [done|].
        rewrite (s_le_trans x v best Hv) in Hx; [done|by eapply Hmax].
    + apply IH.
      * rewrite lookup_app_l; [done|by eapply lookup_lt_Some].
      * intros j v Hj. apply lookup_app_Some in Hj as [Hj|[_ Hj]].
        -- by eapply Hmax.
        -- by apply list_lookup_singleton_Some in Hj as [_ <-].
      * intros j v Hlt Hj. apply lookup_lt_Some in Hbest.
        rewrite lookup_app_l in Hj by lia. by eapply Hfirst.
Qed.

(** X22.  The class the prediction cell reads off the model's output has the
    highest score: no class scores more, and every class before it scores
    strictly less (among equal scores the first wins). *)
Theorem prediction_has_top_score p (x : tensor R) :
  has_topology p = true → shape x = [1; 28; 28] → length (data x) = 28 * 28 →
  ∃ out row i best,
    forward p x = Ok out ∧ select out 0 = Ok row ∧ argmax0 row = Ok i ∧
    data row !! i = Some best ∧
    (∀ j v, data row !! j = Some v → s_gt v best = false) ∧
    (∀ j v, j < i → data row !! j = Some v → s_gt best v = true).
Proof using s_gt_asym s_le_trans.
  intros Hm Hx Hlen.
  destruct (select_argmax_sample p x Hm Hx Hlen) as [Hsel Harg].
  pose proof (length_spec_logits p (data x) Hm) as Hl.
  exists (spec_forward p x), (Tensor [10] (spec_logits p (data x))), (predict p x).
  unfold predict in *. cbn [data].
  destruct (spec_logits p (data x)) as [|s l]; [done|]. cbn [argmax_total] in *.
  destruct (argmax_from_spec [s] l 0 s) as (b & Hb & Hmax & Hfirst).
  - done.
  - intros [|j] v Hj; [|done]. injection Hj as <-. apply s_gt_irrefl.
  - intros j v Hj. lia.
  - exists b. split_and!; [by apply forward_sample|done..].
Qed.

End argmax_order.

(** ** [train] on a label outside the classes *)

Lemma elem_of_concat {A} (x : A) (ls : list (list A)) :
  x ∈ concat ls → ∃ l, l ∈ ls ∧ x ∈ l.
Proof.
  induction ls as [|l ls IH]; cbn [concat]; [by intros ?%elem_of_nil|].
  intros [Hx|Hx]%elem_of_app.
  - exists l. split; [left|done].
  - destruct (IH Hx) as (l' & ? & ?). exists l'. split; [by right|done].
Qed.

Lemma default_collate_images b :
  b ≠ [] → Forall (λ s, shape s.1 = [1; 28; 28]) b → default_collate b = Ok (collated b).
Proof.
  intros Hb Hok. unfold default_collate, collated, stack.
  destruct b as [|s b]; [done|]. cbn [fmap list_fmap fst].
  rewrite Forall_forall in Hok.
  replace (forallb _ _) with true.
  - rewrite bind_Ok. cbn [head from_option].
    by rewrite !length_cons, !length_fmap.
  - symmetry. apply forallb_Forall, Forall_forall.
    intros t Ht. apply bool_decide_eq_true.
    change (s.1 :: (b.*1)) with ((s :: b).*1) in Ht.
    apply list_elem_of_fmap in Ht as (u & -> & Hu).
    rewrite (Hok s) by left. by apply Hok.
Qed.

Lemma train_batch_bad_label size i (b : list (tensor R * nat)) w :
  has_topology (net (model w)) = true →
  b ≠ [] → Forall (λ s, shape s.1 = [1; 28; 28]) b → Exists (λ s, 10 ≤ s.2) b →
  train_batch size (i, default_collate b) w = Raise (IndexError "Target is out of bounds").
Proof.
  intros Hm Hne Himg Hbad. unfold train_batch. cbn [fst snd].
  rewrite (default_collate_images _ Hne Himg).
  erewrite bind_run by done.
  assert (HX : shape (collated b).1 = [length b; 1; 28; 28]).
  { unfold collated. cbn [fst shape]. destruct b as [|s b]; [done|].
    cbn [head from_option]. by rewrite (Forall_inv Himg). }
  erewrite bind_run by (by eapply call_model_run).
  apply bind_fail. unfold loss_fn. cbn [value].
  rewrite (spec_forward_shape _ _ _ _ HX).
  cbn [collated snd]. rewrite length_fmap, bool_decide_eq_true_2 by done.
  replace (forallb _ _) with false; [done|].
  symmetry. apply not_true_is_false. rewrite forallb_Forall, Forall_fmap.
  intros Hall. apply Exists_exists in Hbad as (s & Hs & Hge).
  rewrite Forall_forall in Hall. specialize (Hall s Hs). cbn in Hall.
  apply bool_decide_eq_true in Hall. lia.
Qed.

Lemma train_batches_bad_label size i (gs : list (list (tensor R * nat))) w :
  has_topology (net (model w)) = true → grad_enabled w = true → grad (model w) = None →
  Forall (λ b, b ≠ [] ∧ Forall (λ s, bool_decide (shape s.1 = [1; 28; 28]) && tensor_ok s.1 = true) b) gs →
  Exists (λ b, Exists (λ s, 10 ≤ s.2) b) gs →
  for_each (zip (seq i (length gs)) (default_collate <$> gs)) (train_batch size) w =
    Raise (IndexError "Target is out of bounds").
Proof using sgd_topology.
  intros Hm Hg Hgrad Hgs. revert i w Hm Hg Hgrad.
  induction Hgs as [|b gs [Hne Himg] _ IH]; intros i w Hm Hg Hgrad Hbad.
  { by apply Exists_nil in Hbad. }
  cbn [length seq fmap list_fmap zip zip_with for_each].
  assert (Hshapes : Forall (λ s, shape s.1 = [1; 28; 28]) b).
  { eapply Forall_impl; [done|]. intros s Hs. cbn in Hs.
    apply andb_true_iff in Hs as [Hs _]. by apply bool_decide_eq_true in Hs. }
  destruct (decide (Exists (λ s, 10 ≤ s.2) b)) as [Hb|Hb].
  { apply bind_fail. by apply train_batch_bad_label. }
  apply Exists_cons in Hbad as [Hbad|Hbad]; [done|].
  apply not_Exists_Forall in Hb; [|intros s; apply _].
  assert (Hok : Forall (λ s, sample_ok s = true) b).
  { apply Forall_forall. intros s Hs. rewrite Forall_forall in Himg, Hb.
    specialize (Himg s Hs). specialize (Hb s Hs). cbn in Himg, Hb.
    unfold sample_ok. rewrite Himg. cbn [andb]. apply bool_decide_eq_true. lia. }
  rewrite (default_collate_ok _ Hne Hok).
  destruct (collated_inv (collated b)) as (HX & _ & Hy); [by exists b|].
  erewrite bind_run by (by apply train_batch_run).
  apply IH; [by apply sgd_topology|done..].
Qed.

(** X23.  The labels must be class indices: when every image is well formed
    but some label of the training data is 10 or more, [train] does not
    complete: it raises [IndexError], the error of the loss on a target out
    of bounds. *)
Theorem train_rejects_label_out_of_range dl w :
  0 < batch_size dl →
  Forall (λ s, bool_decide (shape s.1 = [1; 28; 28]) && tensor_ok s.1 = true) (dataset dl) →
  Exists (λ s, 10 ≤ s.2) (dataset dl) →
  has_topology (net (model w)) = true → grad_enabled w = true → grad (model w) = None →
  train dl w = Raise (IndexError "Target is out of bounds").
Proof using sgd_topology.
  intros Hbs Himg Hbad Hm Hg Hgrad. unfold train, enumerate.
  erewrite bind_run by done. unfold DataLoader_iter. rewrite length_fmap.
  apply train_batches_bad_label; [done..| |].
  - by apply batch_sampler_Forall.
  - apply Exists_exists in Hbad as (s & Hs & Hge).
    rewrite <- (batch_sampler_concat (length (dataset dl)) (batch_size dl)) in Hs by done.
    apply elem_of_concat in Hs as (b & Hb & Hsb).
    apply Exists_exists. exists b. split; [done|].
    apply Exists_exists. by exists s.
Qed.
End Notebook.

Arguments Linear R : clear implicits.
Arguments Module R : clear implicits.
Arguments NeuralNetwork R : clear implicits.
Arguments DataLoader R : clear implicits.
Arguments world R G Blob : clear implicits.

Abbreviation Sequential R := (list (Module R)) (only parsing).
Abbreviation Dataset R := (list (tensor R * nat)) (only parsing).

(** * A concrete instance

    Integer scalars and the simplest collaborators satisfying the
    assumptions: they show the assumptions can be met together and give the
    theorems something to be applied to. *)

#[export] Instance Z_Scalar : Scalar Z := {|
  s_zero := 0%Z;
  s_add := Z.add;
  s_mul := Z.mul;
  s_relu := Z.max 0;
  s_gt := Z.gtb
|}.

Module Example.

Local Arguments Nat.mul : simpl never.
Local Opaque Linear_init.

Definition autograd0 (p : NeuralNetwork Z) (X : tensor Z) (y : list nat) : Z :=
  Z.of_nat (length y).

(** An optimizer step that moves every bias against the gradient. *)
Definition step_linear (g : Z) (l : Linear Z) : Linear Z :=
  {| in_features := in_features l;
     out_features := out_features l;
     weight := weight l;
     bias := Tensor (shape (bias l)) ((λ b, b - g)%Z <$> data (bias l)) |}.

Definition step_module (g : Z) (m : Module Z) : Module Z :=
  match m with
  | ModLinear l => ModLinear (step_linear g l)
  | ModReLU => ModReLU
  end.

Definition sgd0 (p : NeuralNetwork Z) (g : Z) : NeuralNetwork Z :=
  {| flatten := flatten p; linear_relu_stack := step_module g <$> linear_relu_stack p |}.

Definition ce0 (pred : tensor Z) (y : list nat) : Q := inject_Z (Z.of_nat (length y)).

Definition dumps0 (sd : gmap string (tensor Z)) : gmap string (tensor Z) := sd.

Definition loads0 (b : gmap string (tensor Z)) : option (gmap string (tensor Z)) := Some b.

Definition gen0 (i : nat) : Z := 1%Z.

(** Other initial values, for a second model. *)
Definition gen1 (i : nat) : Z := 2%Z.

Definition image (v : Z) : tensor Z := Tensor [1; 28; 28] (replicate (28 * 28) v).

Definition training_data0 : Dataset Z := [(image 0, 0); (image 1, 1); (image 2, 2)].

Definition test_data0 : Dataset Z := [(image 3, 3); (image 4, 4)].

Definition train_dataloader0 : DataLoader Z := DataLoader_init training_data0 notebook_batch_size.

Definition test_dataloader0 : DataLoader Z := DataLoader_init test_data0 notebook_batch_size.

Definition world0 : world Z Z (gmap string (tensor Z)) := initial_world gen0 ∅.

(** A dataset with one sample more than 100 full batches. *)
Definition long_data0 : Dataset Z := replicate (100 * 64 + 1) (image 0, 0).

(** The state dict of a network whose first layer is 784→256. *)
Definition narrow_net : NeuralNetwork Z :=
  {| flatten := Flatten_init;
     linear_relu_stack :=
       [ ModLinear (Linear_init (28 * 28) 256 gen0); ModReLU;
         ModLinear (Linear_init 256 512 gen0); ModReLU;
         ModLinear (Linear_init 512 10 gen0) ] |}.

Definition narrow_state : gmap string (tensor Z) := state_dict narrow_net.

Lemma step_linear_ok inf outf g l :
  Linear_ok inf outf l = true → Linear_ok inf outf (step_linear g l) = true.
Proof.
  unfold Linear_ok, step_linear, tensor_ok. cbn [in_features out_features weight bias shape data].
  by rewrite length_fmap.
Qed.

Lemma sgd0_topology p g : has_topology p = true → has_topology (sgd0 p g) = true.
Proof.
  intros (Hf & l0 & l2 & l4 & Hs & L0 & L2 & L4)%has_topology_inv.
  unfold has_topology, sgd0. cbn [flatten linear_relu_stack].
  rewrite Hs, Hf. cbn [fmap list_fmap step_module].
  rewrite bool_decide_eq_true_2 by done.
  by rewrite !step_linear_ok.
Qed.

Lemma gen1_differs :
  first_weight (NeuralNetwork_init gen1) ≠ first_weight (net (model world0)).
Proof.
  change (net (model world0)) with (NeuralNetwork_init gen0).
  rewrite !first_weight_init. done.
Qed.

Lemma ce0_nonneg pred y : (0 <= ce0 pred y)%Q.
Proof. unfold ce0. rewrite <- (Zle_Qle 0). lia. Qed.

Lemma pickle0_roundtrip sd : loads0 (dumps0 sd) = Some sd.
Proof. done. Qed.

Lemma world0_topology : has_topology (net (model world0)) = true.
Proof. apply NeuralNetwork_init_topology. Qed.

Lemma training_data0_ok : dataset_ok training_data0 = true.
Proof. by vm_compute. Qed.

Lemma test_data0_ok : dataset_ok test_data0 = true.
Proof. by vm_compute. Qed.

Lemma batch_size0 : 0 < notebook_batch_size.
Proof. unfold notebook_batch_size. lia. Qed.

Lemma long_data0_ok : dataset_ok long_data0 = true.
Proof.
  apply forallb_Forall, Forall_replicate. by vm_compute.
Qed.

Lemma forward_is_mlp_witness :
  has_topology (NeuralNetwork_init gen0) = true ∧
  shape (Tensor [2; 1; 28; 28] (replicate (2 * (28 * 28)) 0%Z)) = [2; 1; 28; 28] ∧
  shape (spec_forward (NeuralNetwork_init gen0)
           (Tensor [2; 1; 28; 28] (replicate (2 * (28 * 28)) 0%Z))) = [2; 10].
Proof.
  split; [exact (NeuralNetwork_init_topology gen0)|]. split; [reflexivity|].
  exact (proj1 (proj2 (forward_is_mlp (NeuralNetwork_init gen0) 2
                         (Tensor [2; 1; 28; 28] (replicate (2 * (28 * 28)) 0%Z))
                         (NeuralNetwork_init_topology gen0) eq_refl))).
Defined.


Lemma test_reports_metrics_witness :
  (dataset test_dataloader0 = [] ∧ test ce0 test_dataloader0 world0 = Raise ZeroDivisionError) ∨
  (∃ w', test ce0 test_dataloader0 world0 = Ok (tt, w') ∧
     stdout w' = stdout world0 ++
       [LineTestError
          (100 * (inject_Z (Z.of_nat (length (correct_samples (net (model world0))
                                            (dataset test_dataloader0))))
                  / inject_Z (Z.of_nat (length (dataset test_dataloader0)))))%Q
          (Qsum (batch_losses ce0 (net (model world0)) (batches test_dataloader0))
           / inject_Z (Z.of_nat (length (batches test_dataloader0))))%Q]).
Proof.
  exact (proj2 (proj2 (proj2 (test_reports_metrics ce0 test_dataloader0 world0
                                batch_size0 test_data0_ok world0_topology)))).
Defined.

Lemma test_metrics_bounds_witness :
  (dataset test_dataloader0 = [] ∧ test ce0 test_dataloader0 world0 = Raise ZeroDivisionError) ∨
  (∃ w' accuracy avg_loss,
     test ce0 test_dataloader0 world0 = Ok (tt, w') ∧
     stdout w' = stdout world0 ++ [LineTestError (100 * accuracy)%Q avg_loss] ∧
     (0 <= accuracy)%Q ∧ (accuracy <= 1)%Q ∧ (0 <= avg_loss)%Q).
Proof.
  exact (test_metrics_bounds ce0 ce0_nonneg test_dataloader0 world0
           batch_size0 test_data0_ok world0_topology).
Defined.

Lemma test_twice_same_report_witness :
  (dataset test_dataloader0 = [] ∧
   ∀ v : world Z Z (gmap string (tensor Z)),
     test ce0 test_dataloader0 v = Raise ZeroDivisionError) ∨
  (∃ w1 w2 report,
     test ce0 test_dataloader0 world0 = Ok (tt, w1) ∧ test ce0 test_dataloader0 w1 = Ok (tt, w2) ∧
     stdout w1 = stdout world0 ++ [report] ∧ stdout w2 = stdout w1 ++ [report] ∧
     net (model w1) = net (model world0) ∧ grad (model w1) = grad (model world0) ∧
     model w2 = model w1 ∧
     op_of <$> drop (length (log world0)) (log w1) = test_ops (batches test_dataloader0)).
Proof.
  exact (test_twice_same_report ce0 test_dataloader0 world0
           batch_size0 test_data0_ok world0_topology).
Defined.

Lemma gradients_fresh_each_batch_witness :
  ∃ w', run_epochs autograd0 Z.add sgd0 ce0 train_dataloader0 test_dataloader0 world0
          = Ok (tt, w') ∧
        single_batch_updates autograd0 (log w') ∧
        op_of <$> log w' =
          concat (replicate 5 (train_ops (batches train_dataloader0)
                               ++ test_ops (batches test_dataloader0))) ∧
        grad (model w') = None ∧
        net (model w') =
          foldl (λ p _, sgd_pass autograd0 sgd0 p (batches train_dataloader0))
                (NeuralNetwork_init gen0) (seq 0 epochs).
Proof.
  exact (gradients_fresh_each_batch autograd0 Z.add sgd0 ce0 sgd0_topology gen0 ∅
           train_dataloader0 test_dataloader0
           batch_size0 training_data0_ok batch_size0 test_data0_ok
           (λ H, nil_cons (eq_sym H))).
Defined.

Lemma image4_ok : sample_ok (image 4, 4) = true.
Proof. by vm_compute. Qed.

Lemma prediction_in_range_witness :
  ∃ pred row predicted actual,
    forward (net (model world0)) (image 4) = Ok pred ∧ shape pred = [1; 10] ∧
    select pred 0 = Ok row ∧ argmax0 row = Ok (predict (net (model world0)) (image 4)) ∧
    predict (net (model world0)) (image 4) < 10 ∧
    list_index classes (predict (net (model world0)) (image 4)) = Ok predicted ∧
    list_index classes 4 = Ok actual ∧
    ∃ w', predict_cell test_data0 world0 = Ok (tt, w') ∧
          stdout w' = stdout world0 ++ [LinePredicted predicted actual].
Proof.
  exact (prediction_in_range test_data0 (image 4) 4 world0 world0_topology eq_refl image4_ok).
Defined.

Lemma save_load_roundtrip_witness :
  first_weight (NeuralNetwork_init gen1) ≠ first_weight (net (model world0)) ∧
  ∃ w1,
    save_cell dumps0 world0 = Ok (tt, w1) ∧
    files w1 !! "model.pth" = Some (dumps0 (state_dict (net (model world0)))) ∧
    load_state_dict (NeuralNetwork_init gen1) (state_dict (net (model world0)))
      = Ok (net (model world0)) ∧
    ∀ v : world Z Z (gmap string (tensor Z)),
      files v = files w1 →
      ∃ w2, load_cell loads0 gen1 v = Ok (tt, w2) ∧
            net (model w2) = net (model world0) ∧
            (∀ x, forward (net (model w2)) x = forward (net (model world0)) x) ∧
            state_dict (net (model w2)) = state_dict (net (model world0)) ∧
            files w2 = files v.
Proof.
  exact (conj gen1_differs
           (save_load_roundtrip dumps0 loads0 pickle0_roundtrip gen1 world0 world0_topology)).
Defined.

Lemma narrow_state_mismatch :
  ∃ k p, (k, p) ∈ named_parameters (NeuralNetwork_init gen0) ∧
         ∀ t, narrow_state !! k = Some t → shape t ≠ shape p.
Proof.
  exists "linear_relu_stack.0.weight", (weight (Linear_init (28 * 28) 512 gen0)).
  split.
  - rewrite (named_parameters_topology (NeuralNetwork_init gen0) _ _ _ eq_refl). left.
  - intros t. unfold narrow_state, state_dict.
    rewrite (named_parameters_topology narrow_net _ _ _ eq_refl).
    cbn [list_to_map foldr fst snd]. rewrite lookup_insert_eq.
    intros Ht. injection Ht as <-. rewrite !Linear_init_weight_shape.
    intros Heq. assert (256 = 512) by congruence. lia.
Qed.

Lemma load_rejects_mismatch_witness :
  load_cell loads0 gen0
    (initial_world (G := Z) gen0 {["model.pth" := dumps0 narrow_state]}) =
    Raise (RuntimeError "Error(s) in loading state_dict for NeuralNetwork").
Proof.
  exact (proj1 (proj2 (proj2 (load_rejects_mismatch (G := Z) loads0 gen0
                                (initial_world gen0 {["model.pth" := dumps0 narrow_state]}))))
           (dumps0 narrow_state) narrow_state
           (lookup_singleton_eq _ _) eq_refl narrow_state_mismatch).
Defined.

Lemma progress_count_partial_batch_witness :
  ∃ w' loss,
    train autograd0 Z.add sgd0 ce0 (DataLoader_init long_data0 64) world0 = Ok (tt, w') ∧
    length (batches (DataLoader_init long_data0 64)) = 101 ∧
    length (concat (snd <$> take 101 (batches (DataLoader_init long_data0 64)))) = 100 * 64 + 1 ∧
    LineProgress loss 101 (100 * 64 + 1) ∈ stdout w'.
Proof.
  exact (progress_count_partial_batch autograd0 Z.add sgd0 ce0 sgd0_topology
           (DataLoader_init long_data0 64) world0
           eq_refl (length_replicate _ _) long_data0_ok world0_topology eq_refl eq_refl).
Defined.

Definition world_no_grad : world Z Z (gmap string (tensor Z)) := with_grad_enabled false world0.

Definition world_pending : world Z Z (gmap string (tensor Z)) :=
  with_model {| net := NeuralNetwork_init gen0; grad := Some 7%Z; training := true |} world0.

Lemma training_data0_Forall : Forall (λ s, sample_ok s = true) training_data0.
Proof. apply forallb_Forall, training_data0_ok. Qed.

Lemma Z_gt_asym (a b : Z) : s_gt a b = true → s_gt b a = false.
Proof. cbn [s_gt Z_Scalar]. rewrite !Z.gtb_ltb. lia. Qed.

Lemma Z_le_trans (a b c : Z) : s_gt a b = false → s_gt b c = false → s_gt a c = false.
Proof. cbn [s_gt Z_Scalar]. rewrite !Z.gtb_ltb. lia. Qed.

Definition bad_labels : Dataset Z := [(image 0, 0); (image 1, 10)].

Lemma bad_labels_images :
  Forall (λ s : tensor Z * nat, bool_decide (shape s.1 = [1; 28; 28]) && tensor_ok s.1 = true)
         bad_labels.
Proof. apply forallb_Forall. by vm_compute. Qed.

Lemma bad_labels_label : Exists (λ s : tensor Z * nat, 10 ≤ s.2) bad_labels.
Proof. apply Exists_cons_tl, Exists_cons_hd. cbn [snd]. lia. Qed.


(** ** Instances of the further properties *)

Lemma forward_rejects_low_rank_witness :
  forward (NeuralNetwork_init gen0) (Tensor [4] [5; 0; 0; 0]%Z) =
    Raise (IndexError "Dimension out of range").
Proof.
  exact (forward_rejects_low_rank (NeuralNetwork_init gen0) (Tensor [4] [5; 0; 0; 0]%Z)
           eq_refl (le_n 1)).
Defined.

Lemma forward_feature_count_witness :
  forward (NeuralNetwork_init gen0) (Tensor [2; 28; 28] (replicate (2 * (28 * 28)) 0%Z)) =
    if bool_decide (numel [28; 28] = 28 * 28)
    then Ok (Tensor [2; 10]
               (concat (spec_logits (NeuralNetwork_init gen0)
                          <$> rows 2 (28 * 28) (replicate (2 * (28 * 28)) 0%Z))))
    else Raise (RuntimeError "mat1 and mat2 shapes cannot be multiplied").
Proof.
  exact (forward_feature_count (NeuralNetwork_init gen0) 2 [28; 28]
           (Tensor [2; 28; 28] (replicate (2 * (28 * 28)) 0%Z))
           (NeuralNetwork_init_topology gen0) eq_refl (λ H, nil_cons (eq_sym H))).
Defined.

Lemma forward_batch_independent_witness :
  ∃ Xy out row,
    default_collate training_data0 = Ok Xy ∧
    forward (NeuralNetwork_init gen0) Xy.1 = Ok out ∧ select out 1 = Ok row ∧
    (o ← forward (NeuralNetwork_init gen0) (image 1); select o 0) = Ok row.
Proof.
  exact (forward_batch_independent (NeuralNetwork_init gen0) training_data0 1 (image 1, 1)
           (NeuralNetwork_init_topology gen0) training_data0_Forall eq_refl).
Defined.

Lemma dataloader_partitions_dataset_witness :
  ∃ bs, DataLoader_iter train_dataloader0 = Ok <$> bs ∧
        concat (snd <$> bs) = (dataset train_dataloader0).*2 ∧
        concat ((λ Xy, data Xy.1) <$> bs) = concat (data <$> (dataset train_dataloader0).*1) ∧
        Forall (λ Xy, shape Xy.1 = [length Xy.2; 1; 28; 28] ∧
                      0 < length Xy.2 ≤ batch_size train_dataloader0) bs ∧
        ∀ k Xy, bs !! k = Some Xy → S k < length bs →
                length Xy.2 = batch_size train_dataloader0.
Proof.
  exact (dataloader_partitions_dataset train_dataloader0 batch_size0 training_data0_ok).
Defined.

Lemma data_shape_first_batch_witness :
  data_shape_cell train_dataloader0 = Ok [[3; 1; 28; 28]; [3]].
Proof.
  exact (data_shape_first_batch train_dataloader0 batch_size0
           (Forall_take _ 64 _ training_data0_Forall)).
Defined.

Lemma train_empty_dataset_witness :
  train autograd0 Z.add sgd0 ce0 (DataLoader_init [] 64) world0 =
    Ok (tt, with_model {| net := net (model world0); grad := grad (model world0);
                          training := true |} world0).
Proof.
  exact (train_empty_dataset autograd0 Z.add sgd0 ce0 (DataLoader_init [] 64) world0 eq_refl).
Defined.

Lemma train_without_grad_raises_witness :
  train autograd0 Z.add sgd0 ce0 train_dataloader0 world_no_grad =
    Raise (RuntimeError "element 0 of tensors does not require grad").
Proof.
  exact (train_without_grad_raises autograd0 Z.add sgd0 ce0 train_dataloader0 world_no_grad
           batch_size0 training_data0_ok (λ H, nil_cons (eq_sym H)) world0_topology eq_refl).
Defined.

Lemma train_pending_gradient_witness :
  ∃ Xy rest w',
    DataLoader_iter train_dataloader0 = Ok <$> Xy :: rest ∧
    train autograd0 Z.add sgd0 ce0 train_dataloader0 world_pending = Ok (tt, w') ∧
    let p := net (model world_pending) in
    let p1 := sgd0 p (Z.add 7%Z (autograd0 p Xy.1 Xy.2)) in
    net (model w') = sgd_pass autograd0 sgd0 p1 rest ∧
    grad (model w') = None ∧
    log w' = log world_pending
             ++ [EvForward Xy.1 true; EvLoss Xy.2; EvBackward p Xy.1 Xy.2 (Some 7%Z);
                 EvStep (Some (Z.add 7%Z (autograd0 p Xy.1 Xy.2))); EvZeroGrad]
             ++ train_events autograd0 sgd0 p1 rest.
Proof.
  exact (train_pending_gradient autograd0 Z.add sgd0 ce0 sgd0_topology train_dataloader0 7%Z
           world_pending batch_size0 training_data0_ok (λ H, nil_cons (eq_sym H))
           world0_topology eq_refl eq_refl).
Defined.

Lemma train_progress_report_witness :
  ∃ w' bs ls,
    DataLoader_iter train_dataloader0 = Ok <$> bs ∧
    train autograd0 Z.add sgd0 ce0 train_dataloader0 world0 = Ok (tt, w') ∧
    stdout w' = stdout world0 ++ ls ∧
    length ls = (length bs + 99) / 100 ∧
    ∀ l, l ∈ ls ↔
         ∃ k Xy, bs !! k = Some Xy ∧ k mod 100 = 0 ∧
                 l = LineProgress
                       (ce0 (spec_forward (sgd_pass autograd0 sgd0 (net (model world0))
                                             (take k bs)) Xy.1) Xy.2)
                       ((k + 1) * length Xy.2) (length (dataset train_dataloader0)).
Proof.
  exact (train_progress_report autograd0 Z.add sgd0 ce0 sgd0_topology train_dataloader0 world0
           batch_size0 training_data0_ok world0_topology eq_refl eq_refl).
Defined.

Lemma test_restores_state_witness :
  ∃ w', test ce0 test_dataloader0 world0 = Ok (tt, w') ∧
        grad_enabled w' = grad_enabled world0 ∧ files w' = files world0 ∧
        net (model w') = net (model world0) ∧ grad (model w') = grad (model world0) ∧
        training (model w') = false.
Proof.
  exact (test_restores_state ce0 test_dataloader0 world0
           batch_size0 test_data0_ok (λ H, nil_cons (eq_sym H)) world0_topology).
Defined.

Lemma accuracy_independent_of_batch_size_witness :
  ∃ w1 w2 acc loss1 loss2,
    test ce0 (DataLoader_init test_data0 1) world0 = Ok (tt, w1) ∧
    stdout w1 = stdout world0 ++ [LineTestError acc loss1] ∧
    test ce0 (DataLoader_init test_data0 64) world0 = Ok (tt, w2) ∧
    stdout w2 = stdout world0 ++ [LineTestError acc loss2].
Proof.
  exact (accuracy_independent_of_batch_size ce0 test_data0 1 64 world0
           (le_n 1) batch_size0 test_data0_ok (λ H, nil_cons (eq_sym H)) world0_topology).
Defined.

Lemma predict_cell_needs_two_samples_witness :
  predict_cell [(image 3, 3)] world0 = Raise (IndexError "list index out of range").
Proof.
  exact (predict_cell_needs_two_samples [(image 3, 3)] world0 (le_n 1)).
Defined.

Lemma predict_cell_agrees_with_test_witness :
  ∃ predicted actual w',
    predict_cell test_data0 world0 = Ok (tt, w') ∧
    stdout w' = stdout world0 ++ [LinePredicted predicted actual] ∧
    (predicted = actual ↔ (image 4, 4) ∈ correct_samples (net (model world0)) test_data0).
Proof.
  exact (predict_cell_agrees_with_test test_data0 (image 4) 4 world0
           world0_topology eq_refl image4_ok).
Defined.

Lemma state_dict_entries_witness :
  shape <$> state_dict (NeuralNetwork_init gen0) =
    list_to_map
      [ ("linear_relu_stack.0.weight", [512; 28 * 28]); ("linear_relu_stack.0.bias", [512]);
        ("linear_relu_stack.2.weight", [512; 512]); ("linear_relu_stack.2.bias", [512]);
        ("linear_relu_stack.4.weight", [10; 512]); ("linear_relu_stack.4.bias", [10]) ].
Proof.
  exact (state_dict_entries (NeuralNetwork_init gen0) (NeuralNetwork_init_topology gen0)).
Defined.

Lemma load_then_state_dict_witness :
  load_state_dict (NeuralNetwork_init gen0) (state_dict (NeuralNetwork_init gen1)) =
    Ok (NeuralNetwork_init gen1) ∧
  state_dict (NeuralNetwork_init gen1) = state_dict (NeuralNetwork_init gen1).
Proof.
  exact (conj
           (load_state_dict_roundtrip _ _ (NeuralNetwork_init_topology gen0)
              (NeuralNetwork_init_topology gen1))
           (load_then_state_dict (NeuralNetwork_init gen0)
              (state_dict (NeuralNetwork_init gen1)) (NeuralNetwork_init gen1)
              (NeuralNetwork_init_topology gen0)
              (load_state_dict_roundtrip _ _ (NeuralNetwork_init_topology gen0)
                 (NeuralNetwork_init_topology gen1)))).
Defined.

Lemma checkpoint_restore_witness :
  ∃ w1 w2 w3,
    save_cell dumps0 world0 = Ok (tt, w1) ∧
    train autograd0 Z.add sgd0 ce0 train_dataloader0 w1 = Ok (tt, w2) ∧
    load_cell loads0 gen1 w2 = Ok (tt, w3) ∧
    net (model w2) = sgd_pass autograd0 sgd0 (net (model world0)) (batches train_dataloader0) ∧
    files w2 = files w1 ∧
    net (model w3) = net (model world0) ∧ grad (model w3) = None.
Proof.
  exact (checkpoint_restore autograd0 Z.add sgd0 ce0 dumps0 loads0 sgd0_topology
           pickle0_roundtrip gen1 train_dataloader0 world0
           batch_size0 training_data0_ok world0_topology eq_refl eq_refl).
Defined.

Lemma epoch_loop_output_witness :
  ∃ w', run_epochs autograd0 Z.add sgd0 ce0 train_dataloader0 test_dataloader0 world0
          = Ok (tt, w') ∧
        kind_of <$> stdout w' =
          (kind_of <$> stdout world0)
          ++ ([0; 1; 2; 3; 4] ≫= epoch_kinds (DataLoader_len train_dataloader0))
          ++ [KDone].
Proof.
  exact (epoch_loop_output autograd0 Z.add sgd0 ce0 sgd0_topology
           train_dataloader0 test_dataloader0 world0
           batch_size0 training_data0_ok batch_size0 test_data0_ok
           (λ H, nil_cons (eq_sym H)) world0_topology eq_refl eq_refl).
Defined.

Lemma closing_cells_run_witness :
  let trained :=
    foldl (λ p _, sgd_pass autograd0 sgd0 p
                    (batches (DataLoader_init training_data0 notebook_batch_size)))
          (net (model world0)) (seq 0 epochs) in
  ∃ w' predicted actual,
    closing_cells autograd0 Z.add sgd0 ce0 dumps0 loads0 gen1 training_data0 test_data0 world0
      = Ok (tt, w') ∧
    net (model w') = trained ∧
    files w' = <["model.pth" := dumps0 (state_dict trained)]> (files world0) ∧
    classes !! predict trained (image 4) = Some predicted ∧ classes !! 4 = Some actual ∧
    last (stdout w') = Some (LinePredicted predicted actual) ∧
    kind_of <$> stdout w' =
      (kind_of <$> stdout world0)
      ++ ([0; 1; 2; 3; 4]
            ≫= epoch_kinds (DataLoader_len (DataLoader_init training_data0 notebook_batch_size)))
      ++ [KDone; KSaved; KPredicted].
Proof.
  exact (closing_cells_run autograd0 Z.add sgd0 ce0 dumps0 loads0 sgd0_topology
           pickle0_roundtrip gen1 training_data0 test_data0 (image 4) 4 world0
           training_data0_ok test_data0_ok eq_refl world0_topology eq_refl eq_refl).
Defined.

Lemma epoch_loop_empty_test_split_witness :
  ∃ w1, train autograd0 Z.add sgd0 ce0 train_dataloader0 (add_stdout [LineEpoch 1] world0)
          = Ok (tt, w1) ∧
        test ce0 (DataLoader_init [] 64) w1 = Raise ZeroDivisionError ∧
        run_epochs autograd0 Z.add sgd0 ce0 train_dataloader0 (DataLoader_init [] 64) world0
          = Raise ZeroDivisionError.
Proof.
  exact (epoch_loop_empty_test_split autograd0 Z.add sgd0 ce0 sgd0_topology
           train_dataloader0 (DataLoader_init [] 64) world0
           batch_size0 training_data0_ok eq_refl world0_topology eq_refl eq_refl).
Defined.

Lemma prediction_has_top_score_witness :
  ∃ out row i best,
    forward (NeuralNetwork_init gen0) (image 4) = Ok out ∧ select out 0 = Ok row ∧
    argmax0 row = Ok i ∧ data row !! i = Some best ∧
    (∀ j v, data row !! j = Some v → s_gt v best = false) ∧
    (∀ j v, j < i → data row !! j = Some v → s_gt best v = true).
Proof.
  exact (prediction_has_top_score Z_gt_asym Z_le_trans (NeuralNetwork_init gen0) (image 4)
           (NeuralNetwork_init_topology gen0) eq_refl (length_replicate _ _)).
Defined.

Lemma train_rejects_label_out_of_range_witness :
  train autograd0 Z.add sgd0 ce0 (DataLoader_init bad_labels 1) world0 =
    Raise (IndexError "Target is out of bounds").
Proof.
  exact (train_rejects_label_out_of_range autograd0 Z.add sgd0 ce0 sgd0_topology
           (DataLoader_init bad_labels 1) world0
           (le_n 1) bad_labels_images bad_labels_label world0_topology eq_refl eq_refl).
Defined.

End Example.

(** * Small runs

    A 4→3→2 network on 1x2x2 images, small enough to execute the embedding. *)

Module Toy.

Definition l0 : Linear Z :=
  {| in_features := 4; out_features := 3;
     weight := Tensor [3; 4] [1; 0; 0; 0;  0; 1; 0; 0;  0; 0; 1; -1]%Z;
     bias := Tensor [3] [0; 0; 0]%Z |}.

Definition l2 : Linear Z :=
  {| in_features := 3; out_features := 2;
     weight := Tensor [2; 3] [1; 0; 0;  0; 1; 1]%Z;
     bias := Tensor [2] [0; 1]%Z |}.

Definition toy : NeuralNetwork Z :=
  {| flatten := Flatten_init; linear_relu_stack := [ModLinear l0; ModReLU; ModLinear l2] |}.

Definition img (a b c d : Z) : tensor Z := Tensor [1; 2; 2] [a; b; c; d].

Definition ds : Dataset Z :=
  [(img 5 0 0 0, 0); (img 0 5 0 0, 1); (img 0 0 9 0, 0); (img 1 0 0 0, 1); (img 0 0 0 7, 1)].

Definition w0 : world Z Z (gmap string (tensor Z)) :=
  {| model := {| net := toy; grad := None; training := true |};
     grad_enabled := true; files := ∅; stdout := []; log := [] |}.

Definition printed {A} (r : result (A * world Z Z (gmap string (tensor Z))))
    : option (list line) :=
  match r with
  | Ok (_, w) => Some (stdout w)
  | Raise _ => None
  end.

Example toy_forward_sample : forward toy (img 5 0 0 0) = Ok (Tensor [1; 2] [5; 1]%Z).
Proof. reflexivity. Qed.

Example toy_forward_batch :
  forward toy (Tensor [2; 1; 2; 2] [5; 0; 0; 0; 0; 0; 9; 0]%Z) = Ok (Tensor [2; 2] [5; 1; 0; 10]%Z).
Proof. reflexivity. Qed.

Example toy_forward_vector :
  forward toy (Tensor [4] [5; 0; 0; 0]%Z) = Raise (IndexError "Dimension out of range").
Proof. reflexivity. Qed.

Example toy_forward_wrong_size :
  forward toy (Tensor [1; 1; 3] [5; 0; 0]%Z)
  = Raise (RuntimeError "mat1 and mat2 shapes cannot be multiplied").
Proof. reflexivity. Qed.

Example toy_batches :
  (λ Xy, (shape Xy.1, Xy.2)) <$> batches (DataLoader_init ds 2)
  = [([2; 1; 2; 2], [0; 1]); ([2; 1; 2; 2], [0; 1]); ([1; 1; 2; 2], [1])].
Proof. reflexivity. Qed.

Example toy_iter_shapes :
  (λ r, match r with Ok Xy => Some (shape Xy.1, Xy.2) | Raise _ => None end)
    <$> DataLoader_iter (DataLoader_init ds 2)
  = [Some ([2; 1; 2; 2], [0; 1]); Some ([2; 1; 2; 2], [0; 1]); Some ([1; 1; 2; 2], [1])].
Proof. reflexivity. Qed.

Example toy_train_prints :
  printed (train Example.autograd0 Z.add Example.sgd0 Example.ce0 (DataLoader_init ds 2) w0)
  = Some [LineProgress (inject_Z 2) 2 5].
Proof. reflexivity. Qed.

Example toy_test_prints :
  printed (test Example.ce0 (DataLoader_init ds 2) w0)
  = Some [LineTestError (100 * ((0 + inject_Z 1 + inject_Z 1 + inject_Z 1) / inject_Z 5))%Q
                        ((0 + inject_Z 2 + inject_Z 2 + inject_Z 1) / inject_Z 3)%Q].
Proof. reflexivity. Qed.

Example toy_test_empty :
  test Example.ce0 (DataLoader_init [] 2) w0 = Raise ZeroDivisionError.
Proof. reflexivity. Qed.

Example toy_predict :
  printed (predict_cell ds w0) = Some [LinePredicted "Trouser" "Trouser"].
Proof. reflexivity. Qed.

Example toy_load_own_state : load_state_dict toy (state_dict toy) = Ok toy.
Proof. by vm_compute. Qed.

Example toy_load_wrong_shape :
  load_state_dict toy
    (<["linear_relu_stack.0.weight" := Tensor [2; 4] [1; 1; 1; 1; 1; 1; 1; 1]%Z]> (state_dict toy))
  = Raise (RuntimeError "Error(s) in loading state_dict for NeuralNetwork").
Proof. by vm_compute. Qed.

Example toy_load_missing_key :
  load_state_dict toy (delete "linear_relu_stack.0.bias" (state_dict toy))
  = Raise (RuntimeError "Error(s) in loading state_dict for NeuralNetwork").
Proof. by vm_compute. Qed.

Example toy_forward_layout :
  forward toy (Tensor [2; 4] [5; 0; 0; 0; 0; 0; 9; 0]%Z)
  = forward toy (Tensor [2; 1; 2; 2] [5; 0; 0; 0; 0; 0; 9; 0]%Z).
Proof. reflexivity. Qed.

Example toy_data_shape : data_shape_cell (DataLoader_init ds 2) = Ok [[2; 1; 2; 2]; [2]].
Proof. reflexivity. Qed.

(** A sample of another shape in the second batch: the data-shape cell does
    not reach it, a training pass does. *)
Definition ds_bad : Dataset Z :=
  [(img 5 0 0 0, 0); (img 0 5 0 0, 1); (Tensor [1; 4] [0; 0; 9; 0]%Z, 0); (img 1 0 0 0, 1)].

Example toy_data_shape_lazy :
  data_shape_cell (DataLoader_init ds_bad 2) = Ok [[2; 1; 2; 2]; [2]].
Proof. reflexivity. Qed.

Example toy_train_bad_batch :
  train Example.autograd0 Z.add Example.sgd0 Example.ce0 (DataLoader_init ds_bad 2) w0
  = Raise (RuntimeError "stack expects each tensor to be equal size").
Proof. reflexivity. Qed.

Example toy_train_no_grad :
  train Example.autograd0 Z.add Example.sgd0 Example.ce0 (DataLoader_init ds 2)
    (with_grad_enabled false w0)
  = Raise (RuntimeError "element 0 of tensors does not require grad").
Proof. reflexivity. Qed.

Example toy_epoch_kinds :
  fmap (M:=list) kind_of
    <$> printed (run_epochs Example.autograd0 Z.add Example.sgd0 Example.ce0
                   (DataLoader_init ds 2) (DataLoader_init ds 2) w0)
  = Some (([0; 1; 2; 3; 4] ≫= epoch_kinds 3) ++ [KDone]).
Proof. reflexivity. Qed.

Example toy_load_unexpected_key :
  load_state_dict toy (<["extra" := Tensor [1] [0%Z]]> (state_dict toy))
  = Raise (RuntimeError "Error(s) in loading state_dict for NeuralNetwork").
Proof. by vm_compute. Qed.

End Toy.
